(** * Risk-profile questionnaire: scoring and portfolio lookup

    A shallow embedding of [Investor_Risk_assement.py] (a Streamlit script
    over three pandas tables) and the properties of its scoring and lookup
    logic.

    Conventions of the embedding.
    - A Python [str] is a Rocq [string]; a character stands for a code point
      below 256, and [lower] / [strip] follow [str.lower] / [str.strip] on
      that range.  The en dash of some answer labels is kept as its UTF-8
      bytes; labels are only ever compared for equality.
    - A Python [int] is a [Z]; an int64 of pandas is a [Z] with the cast
      into its range written out.
    - A table cell is an integer, a float, a string or a missing value
      (NaN).  A finite float is kept as the rational it denotes together
      with the text Python prints for it, because float printing is not
      computed here; the two infinities are cells of their own.
    - Streamlit calls are recorded as a trace of events; [st.stop()] and a
      raised exception end the trace. *)

From Stdlib Require Import ZArith QArith List String Ascii Bool Lia.
From Stdlib Require Import Permutation Sorted DecimalString.
From Stdlib Require Import OrderedTypeEx.
Import ListNotations.

Local Open Scope string_scope.
Local Open Scope Z_scope.
Local Open Scope list_scope.

(* ------------------------------------------------------------------ *)
(** ** Python strings *)

Module PyStr.

Definition code (c : ascii) : N := N_of_ascii c.

(** [str.isspace] on code points below 256. *)
Definition is_space (c : ascii) : bool :=
  let n := code c in
  ((9 <=? n) && (n <=? 13) || (28 <=? n) && (n <=? 32)
   || (n =? 133) || (n =? 160))%N.

(** [str.lower] on one code point below 256: A-Z, and the upper-case
    letters of Latin-1 (0xC0-0xDE without the multiplication sign 0xD7). *)
Definition lower_char (c : ascii) : ascii :=
  let n := code c in
  if ((65 <=? n) && (n <=? 90)
      || (192 <=? n) && (n <=? 222) && negb (n =? 215))%N
  then ascii_of_N (n + 32) else c.

Fixpoint lower (s : string) : string :=
  match s with
  | EmptyString => EmptyString
  | String c r => String (lower_char c) (lower r)
  end.

Fixpoint lstrip (s : string) : string :=
  match s with
  | EmptyString => EmptyString
  | String c r => if is_space c then lstrip r else s
  end.

Fixpoint rstrip (s : string) : string :=
  match s with
  | EmptyString => EmptyString
  | String c r =>
      match rstrip r with
      | EmptyString => if is_space c then EmptyString else String c EmptyString
      | r' => String c r'
      end
  end.

Definition strip (s : string) : string := rstrip (lstrip s).

(** [str(n)] for a Python int. *)
Definition of_int (z : Z) : string := NilZero.string_of_int (Z.to_int z).

(** [s1.replace(old, new)] for one-character [old] and [new]; this is what
    [" ".join(c.split("_"))] computes. *)
Fixpoint replace_char (old new : ascii) (s : string) : string :=
  match s with
  | EmptyString => EmptyString
  | String c r =>
      String (if Ascii.eqb c old then new else c) (replace_char old new r)
  end.

(** [str.upper] on an ASCII letter; only applied to the column-name
    literals of the script. *)
Definition upper_ascii (c : ascii) : ascii :=
  let n := code c in
  if ((97 <=? n) && (n <=? 122))%N then ascii_of_N (n - 32) else c.

Definition capitalize (s : string) : string :=
  match s with
  | EmptyString => EmptyString
  | String c r => String (upper_ascii c) (lower r)
  end.

End PyStr.

(* ------------------------------------------------------------------ *)
(** ** Table cells and Python conversions *)

(** A value of a table cell: an integer (of an int64 column), a finite
    float with its value and the text [str] gives it, an infinite float,
    a string, or a missing value. *)
Inductive cell : Type :=
| CInt (z : Z)
| CFloat (q : Q) (repr : string)
| CInf (negative : bool)
| CStr (s : string)
| CNaN.

(** Python [==] between two scalars, as pandas applies it elementwise.
    NaN equals nothing; an int and a float are compared by value. *)
Definition py_eq (a b : cell) : bool :=
  match a, b with
  | CInt x, CInt y => x =? y
  | CInt x, CFloat q _ | CFloat q _, CInt x => Qeq_bool q (inject_Z x)
  | CFloat p _, CFloat q _ => Qeq_bool p q
  | CInf a, CInf b => Bool.eqb a b
  | CStr s, CStr t => String.eqb s t
  | _, _ => false
  end.

(** [str(x)] of a cell value. *)
Definition py_str (c : cell) : string :=
  match c with
  | CInt z => PyStr.of_int z
  | CFloat _ repr => repr
  | CInf negative => if negative then "-inf" else "inf"
  | CStr s => s
  | CNaN => "nan"
  end.

(** Rounding of a finite float toward zero, as [int(x)] and
    [astype(int)] do. *)
Definition trunc (q : Q) : Z := Z.quot (Qnum q) (Z.pos (Qden q)).

Inductive exn : Type :=
| ValueError
| OverflowError
| AttributeError
| IndexError.

Module PyInt.

(** Whitespace that [int(s)] skips at both ends of [s]. *)
Definition is_space (c : ascii) : bool :=
  let n := PyStr.code c in
  ((9 <=? n) && (n <=? 13) || (n =? 32) || (n =? 133) || (n =? 160))%N.

Definition digit (c : ascii) : option Z :=
  let n := PyStr.code c in
  if ((48 <=? n) && (n <=? 57))%N then Some (Z.of_N n - 48) else None.

Fixpoint lstrip (s : string) : string :=
  match s with
  | EmptyString => EmptyString
  | String c r => if is_space c then lstrip r else s
  end.

Fixpoint rstrip (s : string) : string :=
  match s with
  | EmptyString => EmptyString
  | String c r =>
      match rstrip r with
      | EmptyString => if is_space c then EmptyString else String c EmptyString
      | r' => String c r'
      end
  end.

(** Digits with single underscores between them; [acc] is the value read
    so far and [after_digit] tells whether the previous character was a
    digit (an underscore is only legal there, and not at the end). *)
Fixpoint digits (s : string) (acc : Z) (after_digit : bool) : option Z :=
  match s with
  | EmptyString => if after_digit then Some acc else None
  | String c r =>
      match digit c with
      | Some d => digits r (10 * acc + d) true
      | None =>
          if Ascii.eqb c "_" && after_digit
          then match r with
               | EmptyString => None
               | String c' _ =>
                   match digit c' with
                   | Some _ => digits r acc false
                   | None => None
                   end
               end
          else None
      end
  end.

Fixpoint count_digits (s : string) : Z :=
  match s with
  | EmptyString => 0
  | String c r =>
      match digit c with
      | Some _ => 1 + count_digits r
      | None => count_digits r
      end
  end.

(** [int(s)] in base 10; [None] stands for [ValueError], which CPython
    also raises for more than 4300 digits. *)
Definition of_str (s : string) : option Z :=
  if 4300 <? count_digits s then None
  else
    match rstrip (lstrip s) with
    | String "-" r => option_map Z.opp (digits r 0 false)
    | String "+" r => digits r 0 false
    | r => digits r 0 false
    end.

(** [int(x)] of a cell value. *)
Definition of_cell (c : cell) : exn + Z :=
  match c with
  | CInt z => inr z
  | CFloat q _ => inr (trunc q)
  | CInf _ => inl OverflowError
  | CStr s => match of_str s with Some z => inr z | None => inl ValueError end
  | CNaN => inl ValueError
  end.

End PyInt.

(* ------------------------------------------------------------------ *)
(** ** DataFrames *)

Record DataFrame : Type := mkDF {
  columns : list string;
  rows : list (list cell)
}.

(** [pd.DataFrame()] *)
Definition empty_frame : DataFrame := mkDF [] [].

(** [df.empty]: some axis has length 0. *)
Definition df_empty (df : DataFrame) : bool :=
  match columns df, rows df with
  | [], _ | _, [] => true
  | _, _ => false
  end.

(** [name in df.columns] *)
Definition has_column (df : DataFrame) (name : string) : bool :=
  existsb (String.eqb name) (columns df).

Fixpoint index_of (name : string) (cols : list string) : option nat :=
  match cols with
  | [] => None
  | c :: r => if String.eqb c name then Some O
              else option_map S (index_of name r)
  end.

(** The cell of [row] under column [name]; a row shorter than the header
    is padded with NaN, as [read_csv] does. *)
Definition get (cols : list string) (name : string) (row : list cell) : cell :=
  match index_of name cols with
  | Some i => nth i row CNaN
  | None => CNaN
  end.

(** [df[name]] as a list of cells. *)
Definition column (df : DataFrame) (name : string) : list cell :=
  map (get (columns df) name) (rows df).

(** [df.loc[mask]] for the mask [df[name] == v]. *)
Definition rows_where (df : DataFrame) (name : string) (v : cell)
  : list (list cell) :=
  filter (fun r => py_eq (get (columns df) name r) v) (rows df).

(** [df.iloc[:, :-1]] *)
Definition drop_last_column (df : DataFrame) : DataFrame :=
  mkDF (removelast (columns df))
       (map (firstn (pred (List.length (columns df)))) (rows df)).

(* ------------------------------------------------------------------ *)
(** ** The Streamlit trace *)

Inductive error_msg : Type :=
| FileNotFound (path : string)
| CouldNotRead (path : string)
| MissingColumn (file col : string)
| Unexpected (e : exn).

Inductive warning_msg : Type :=
| NoColumnFor (col_name : string)     (* no mapping for this risk tolerance score *)
| NoRowFor (time_horizon_score : Z)   (* no mapping for this time horizon score *)
| NoDetailsFor (portfolio_type : string)
| NothingToPlot.

Inductive info_msg : Type :=
| ShortHorizon            (* 40% short-term bonds, 60% cash investments *)
| PlanTableUnavailable.

Inductive event : Type :=
| Heading (text : string)
| Prose (tag : string)
| Radio (key : string) (labels : list cell)
| ScoreLine (name : string) (score : Z)
| Table (df : DataFrame)
| Error (e : error_msg)
| Warning (w : warning_msg)
| Info (i : info_msg)
| TypeHeading (portfolio_type : string)
| Profile (portfolio_type : string) (description : string)
| ReturnsTable (stats : list (list cell))  (* per row of [filtered], its
                                             three statistics: one column
                                             of the table shown, which
                                             holds these values in one
                                             dtype *)
| Suggestion (portfolio_type : string)
| BarChart (data : list (string * Z)).

(** How a piece of the script ends: it returns, it calls [st.stop()], or
    it raises. *)
Inductive outcome (A : Type) : Type :=
| Done (a : A)
| Stopped
| Raised (e : exn).
Arguments Done {A} a.
Arguments Stopped {A}.
Arguments Raised {A} e.

Definition ui (A : Type) : Type := list event * outcome A.

Definition ret {A} (a : A) : ui A := ([], Done a).

Definition bind {A B} (m : ui A) (k : A -> ui B) : ui B :=
  match m with
  | (t, Done a) => let (t', o) := k a in (t ++ t', o)
  | (t, Stopped) => (t, Stopped)
  | (t, Raised e) => (t, Raised e)
  end.

Definition emit (e : event) : ui unit := ([e], Done tt).
Definition stop {A} : ui A := ([], Stopped).
Definition raise {A} (e : exn) : ui A := ([], Raised e).

Declare Scope ui_scope.
Delimit Scope ui_scope with ui.
Notation "x <- m ;; k" := (bind m (fun x => k))
  (at level 100, m at next level, right associativity) : ui_scope.
Notation "' p <- m ;; k" := (bind m (fun p => k))
  (at level 100, p pattern, m at next level, right associativity) : ui_scope.
Notation "m ;; k" := (bind m (fun _ => k))
  (at level 100, right associativity) : ui_scope.
Local Open Scope ui_scope.

Definition trace {A} (m : ui A) : list event := fst m.
Definition result {A} (m : ui A) : outcome A := snd m.

(* ------------------------------------------------------------------ *)
(** ** Files and answers *)

Definition QUESTION_7_CSV : string := "question_7.csv".
Definition RISK_MATRIX_CSV : string := "Risk_profile_matrix.csv".
Definition PORTFOLIO_TYPE_CSV : string := "Portfolio_type.csv".

(** What [load_csv] finds at a path. *)
Inductive csv_file : Type :=
| Absent
| Unreadable
| Parsed (df : DataFrame).

Record files : Type := mkFiles {
  question_7 : csv_file;
  risk_matrix : csv_file;
  portfolio_type : csv_file
}.

(** The selections the user makes in the radios [q1] .. [q7]. *)
Record answers : Type := mkAnswers {
  a1 : string; a2 : string;
  a3 : string; a4 : string; a5 : string; a6 : string;
  a7 : cell
}.

Definition load_csv (path : string) (f : csv_file) : ui DataFrame :=
  match f with
  | Absent => emit (Error (FileNotFound path)) ;; ret empty_frame
  | Unreadable => emit (Error (CouldNotRead path)) ;; ret empty_frame
  | Parsed df => ret df
  end.

(* ------------------------------------------------------------------ *)
(** ** Score tables and the scorer *)

(** A dict literal, in insertion order. *)
Definition dict : Type := list (string * Z).

(** [d.get(k, default)] *)
Fixpoint dict_get (d : dict) (k : string) (default : Z) : Z :=
  match d with
  | [] => default
  | (k', v) :: r => if String.eqb k' k then v else dict_get r k default
  end.

Definition keys (d : dict) : list string := map fst d.

Definition score_from_radio (options_to_points : dict) (key : string)
           (choice : string) : ui Z :=
  emit (Radio key (map CStr (keys options_to_points))) ;;
  ret (dict_get options_to_points choice 0).

Definition q1 : dict :=
  [ ("Less than 3 years", 1); ("3–5 years", 3);
    ("6–10 years", 7); ("11 years or more", 10) ].

Definition q2 : dict :=
  [ ("Less than 2 years", 0); ("2–5 years", 1);
    ("6–10 years", 4); ("11 years or more", 8) ].

Definition q3 : dict :=
  [ ("None", 1); ("Limited", 3); ("Good", 7); ("Extensive", 10) ].

Definition q4 : dict :=
  [ ("Take lower than average risks expecting to earn lower than average returns", 0);
    ("Take average risks expecting to earn average returns", 4);
    ("Take above average risks expecting to earn above average returns", 8) ].

Definition q5 : dict :=
  [ ("Bonds and/or bond funds", 3);
    ("Stocks and/or stock funds", 6);
    ("International securities and/or international funds", 8) ].

Definition q6 : dict :=
  [ ("Sell all of my shares", 0); ("Sell some of my shares", 2);
    ("Do nothing", 5); ("Buy more shares", 8) ].

Definition render_time_horizon (a : answers) : ui (Z * dict) :=
  emit (Heading "Risk profile") ;;
  emit (Heading "Time horizon") ;;
  s1 <- score_from_radio q1 "q1" (a1 a) ;;
  s2 <- score_from_radio q2 "q2" (a2 a) ;;
  let scores := [("question_1", s1); ("question_2", s2)] in
  let time_horizon_score :=
    dict_get scores "question_1" 0 + dict_get scores "question_2" 0 in
  emit (ScoreLine "Time horizon score" time_horizon_score) ;;
  ret (time_horizon_score, scores).

(** Lines 135-154 of [render_risk_tolerance]: the points of question 7. *)
Definition plan_points (f : files) (plan_choice : cell) : ui Z :=
  df_q7 <- load_csv QUESTION_7_CSV (question_7 f) ;;
  if negb (df_empty df_q7)
     && has_column df_q7 "Plan" && has_column df_q7 "Points"
  then
    emit (Prose "question 7") ;;
    emit (Radio "q7" (column df_q7 "Plan")) ;;
    emit (Table (drop_last_column df_q7)) ;;
    match map (get (columns df_q7) "Points")
              (rows_where df_q7 "Plan" plan_choice) with
    | [] => ret 0
    | c :: _ =>
        match PyInt.of_cell c with
        | inr z => ret z
        | inl e => raise e
        end
    end
  else
    emit (Info PlanTableUnavailable) ;; ret 0.

Definition render_risk_tolerance (f : files) (a : answers) : ui (Z * dict) :=
  emit (Heading "Risk tolerance") ;;
  s3 <- score_from_radio q3 "q3" (a3 a) ;;
  s4 <- score_from_radio q4 "q4" (a4 a) ;;
  s5 <- score_from_radio q5 "q5" (a5 a) ;;
  s6 <- score_from_radio q6 "q6" (a6 a) ;;
  let scores := [("question_3", s3); ("question_4", s4);
                 ("question_5", s5); ("question_6", s6)] in
  q7_points <- plan_points f (a7 a) ;;
  let risk_tolerance_score :=
    dict_get scores "question_3" 0 + dict_get scores "question_4" 0
    + dict_get scores "question_5" 0 + dict_get scores "question_6" 0
    + q7_points in
  let risk_tolerance_score := Z.min risk_tolerance_score 40 in
  emit (ScoreLine "Risk tolerance score" risk_tolerance_score) ;;
  ret (risk_tolerance_score, scores).

(* ------------------------------------------------------------------ *)
(** ** Portfolio lookup: [show_portfolio], lines 175-214

    [TypeHeading t], [Profile t d] and [Suggestion t] stand for the texts
    that show [t.capitalize()]. *)

(** Lines 175-202: from the two scores to the portfolio type. *)
Definition lookup_type (f : files) (time_horizon_score risk_tolerance_score : Z)
  : ui (string * DataFrame) :=
  df_risk_matrix <- load_csv RISK_MATRIX_CSV (risk_matrix f) ;;
  df_portfolio <- load_csv PORTFOLIO_TYPE_CSV (portfolio_type f) ;;
  if df_empty df_risk_matrix || df_empty df_portfolio then stop else
  if negb (has_column df_risk_matrix "Time_horizon_score") then
    emit (Error (MissingColumn RISK_MATRIX_CSV "Time_horizon_score")) ;; stop
  else
  let col_name := PyStr.of_int risk_tolerance_score in
  if negb (has_column df_risk_matrix col_name) then
    emit (Warning (NoColumnFor col_name)) ;; stop
  else
  match rows_where df_risk_matrix "Time_horizon_score"
                   (CInt time_horizon_score) with
  | [] => emit (Warning (NoRowFor time_horizon_score)) ;; stop
  | row0 :: _ =>
      let portfolio_type :=
        PyStr.lower (PyStr.strip
          (py_str (get (columns df_risk_matrix) col_name row0))) in
      emit (TypeHeading portfolio_type) ;;
      ret (portfolio_type, df_portfolio)
  end.

(** [row[i] = f(row[i])], the row padded with NaN up to [i]. *)
Fixpoint set_cell (i : nat) (f : cell -> cell) (row : list cell) : list cell :=
  match i, row with
  | O, [] => [f CNaN]
  | O, c :: r => f c :: r
  | S j, [] => CNaN :: set_cell j f []
  | S j, c :: r => c :: set_cell j f r
  end.

(** One element of [series.str.lower()]: a value that is no string
    becomes NaN. *)
Definition str_lower_cell (c : cell) : cell :=
  match c with
  | CStr s => CStr (PyStr.lower s)
  | _ => CNaN
  end.

Definition is_str (c : cell) : bool :=
  match c with CStr _ => true | _ => false end.

(** [df[name] = df[name].str.lower()].  The [.str] accessor raises
    [AttributeError] on a column that holds no string. *)
Definition str_lower_column (df : DataFrame) (name : string)
  : exn + DataFrame :=
  if existsb is_str (column df name) then
    match index_of name (columns df) with
    | Some i => inr (mkDF (columns df)
                          (map (set_cell i str_lower_cell) (rows df)))
    | None => inr df
    end
  else inl AttributeError.

(** Lines 205-214: the catalog rows of the portfolio type. *)
Definition lookup_details (df_portfolio : DataFrame) (portfolio_type : string)
  : ui DataFrame :=
  if negb (has_column df_portfolio "type_name") then
    emit (Error (MissingColumn PORTFOLIO_TYPE_CSV "type_name")) ;; stop
  else
  match str_lower_column df_portfolio "type_name" with
  | inl e => raise e
  | inr df_portfolio =>
      let filtered :=
        mkDF (columns df_portfolio)
             (rows_where df_portfolio "type_name" (CStr portfolio_type)) in
      match rows filtered with
      | [] => emit (Warning (NoDetailsFor portfolio_type)) ;; stop
      | _ :: _ => ret filtered
      end
  end.

(** Lines 175-214 together: the portfolio type and its catalog rows. *)
Definition resolve (f : files) (time_horizon_score risk_tolerance_score : Z)
  : ui (string * DataFrame) :=
  '(portfolio_type, df_portfolio) <-
     lookup_type f time_horizon_score risk_tolerance_score ;;
  filtered <- lookup_details df_portfolio portfolio_type ;;
  ret (portfolio_type, filtered).

(* ------------------------------------------------------------------ *)
(** ** Presentation: [show_portfolio], lines 216-273, and the script *)

(** A number as [pd.to_numeric] yields it. *)
Inductive number : Type :=
| NInt (z : Z)
| NFloat (q : Q)
| NInf (negative : bool).

Definition is_finite (n : number) : bool :=
  match n with
  | NInf _ => false
  | NInt _ | NFloat _ => true
  end.

(** [.fillna(0)] on one value; [None] is NaN. *)
Definition fillna0 (n : option number) : number :=
  match n with
  | Some x => x
  | None => NInt 0
  end.

(** The float64 nearest to an integer, ties to even: what an integer
    becomes in a float64 column.  Up to 2^53 in magnitude it is the
    integer itself; beyond, 53 significant bits are kept. *)
Definition to_float64 (z : Z) : Z :=
  let a := Z.abs z in
  if a <=? 2 ^ 53 then z
  else
    let e := Z.log2 a - 52 in
    let q := Z.shiftr a e in
    let r := Z.land a (Z.ones e) in
    let half := 2 ^ (e - 1) in
    let q' := if (half <? r) || ((r =? half) && Z.odd q) then q + 1
              else q in
    Z.sgn z * (q' * 2 ^ e).

(** The int64 that the cast of a finite float64 with integral part [t]
    gives: [t] when it fits, and the least int64 otherwise (the result of
    the conversion instruction of x86-64). *)
Definition int64_cast (t : Z) : Z :=
  if (- 2 ^ 63 <=? t) && (t <? 2 ^ 63) then t else - 2 ^ 63.

(** [.astype(int)] on one value of a column.  In an int64 column it
    changes nothing; in a float64 column ([float_column]) every value is
    a float64 and is cast, its fraction dropped.  pandas refuses a column
    that holds an infinity before it casts any value (see [present]); the
    cast itself would give the least int64. *)
Definition astype_int (float_column : bool) (n : number) : Z :=
  match n with
  | NInt z => if float_column then int64_cast (to_float64 z) else z
  | NFloat q => int64_cast (trunc q)
  | NInf _ => - 2 ^ 63
  end.

Definition is_int (n : option number) : bool :=
  match n with
  | Some (NInt _) => true
  | _ => false
  end.

(** The lambda of [rename]: [" ".join(c.split("_")).capitalize()]. *)
Definition rename_column (c : string) : string :=
  PyStr.capitalize (PyStr.replace_char "_" " " c).

Definition returns_cols : list string :=
  ["average_annual_return"; "best_year"; "worst_year"].

Definition comp_cols : list string :=
  ["large_cap_equity"; "small_cap_equity"; "international_equity";
   "fixed_income"; "cash_investments"].

(** One group of [groupby(category)[y].sum()]; groups are kept in the
    order of their keys. *)
Fixpoint group_add (k : string) (v : Z) (g : list (string * Z))
  : list (string * Z) :=
  match g with
  | [] => [(k, v)]
  | (k', v') :: r =>
      match String.compare k k' with
      | Eq => (k', v' + v) :: r
      | Lt => (k, v) :: g
      | Gt => (k', v') :: group_add k v r
      end
  end.

Definition groupby_sum (data : list (string * Z)) : list (string * Z) :=
  fold_left (fun g kv => group_add (fst kv) (snd kv) g) data [].

Section Pandas.

(** Two routines of pandas are taken as given.
    [to_numeric_str s] is what [pd.to_numeric] reads in the string [s],
    [None] when it reads no number; an integer outside int64 is outside
    the model.
    [sort_values ascending rows] is [DataFrame.sort_values] by the weight
    column with the default [kind]; the theorems below assume of it
    that it permutes the rows and orders them by weight, and only where
    they speak of rows of equal weight that it keeps these in the order
    given. *)
Variable to_numeric_str : string -> option number.
Variable sort_values : bool -> list (string * Z) -> list (string * Z).

(** [pd.to_numeric(x, errors="coerce")] on one value; [None] is NaN. *)
Definition to_numeric (c : cell) : option number :=
  match c with
  | CInt z => Some (NInt z)
  | CFloat q _ => Some (NFloat q)
  | CInf negative => Some (NInf negative)
  | CStr s => to_numeric_str s
  | CNaN => None
  end.

(** The dtype [pd.to_numeric] gives the weight column: int64 when every
    one of its values reads as an integer, float64 as soon as one is a
    float, is missing or reads as no number. *)
Definition float_column (cells : list cell) : bool :=
  negb (forallb is_int (map to_numeric cells)).

(** Line 256 on one cell of the weight column. *)
Definition coerce_weight (float_column : bool) (c : cell) : Z :=
  astype_int float_column (fillna0 (to_numeric c)).

(** Whether [astype(int)] accepts the weight column: it raises
    [IntCastingNaNError], a [ValueError], when a value is infinite. *)
Definition castable (cells : list cell) : bool :=
  forallb (fun c => is_finite (fillna0 (to_numeric c))) cells.

(** Lines 251-257: [comp] as (asset class, weight) rows; the weights are
    those of the first row of [filtered]. *)
Definition composition (cols : list string) (row0 : list cell)
  : list (string * Z) :=
  let weight := map (fun c => get cols c row0) comp_cols in
  sort_values false
    (map (fun c => (rename_column c,
                    coerce_weight (float_column weight) (get cols c row0)))
         comp_cols).

(** [bar_chart_display(comp_reset, "Asset class", "Weight")]: [data] are
    the two columns it is called with, which always exist, so the guard
    is left with [df.empty]; [round(2)] changes no integer. *)
Definition bar_chart_display (data : list (string * Z)) : ui unit :=
  match data with
  | [] => emit (Warning NothingToPlot)
  | _ :: _ => emit (BarChart (sort_values true (groupby_sum data)))
  end.

(** Lines 216-273. *)
Definition present (portfolio_type : string) (filtered : DataFrame)
  : ui unit :=
  match rows filtered with
  | [] => raise IndexError
  | row0 :: _ =>
      let cols := columns filtered in
      (if has_column filtered "investor_type" then
         emit (Profile portfolio_type
                       (py_str (get cols "investor_type" row0)))
       else ret tt) ;;
      (if forallb (has_column filtered) returns_cols then
         emit (ReturnsTable
                 (map (fun r => map (fun c => get cols c r) returns_cols)
                      (rows filtered)))
       else ret tt) ;;
      (if forallb (has_column filtered) comp_cols then
         if castable (map (fun c => get cols c row0) comp_cols) then
           let comp := composition cols row0 in
           emit (Suggestion portfolio_type) ;;
           bar_chart_display comp ;;
           emit (Prose "Definitions")
         else raise ValueError
       else ret tt)
  end.

Definition show_portfolio (f : files)
           (time_horizon_score risk_tolerance_score : Z) : ui unit :=
  '(portfolio_type, filtered) <-
     resolve f time_horizon_score risk_tolerance_score ;;
  present portfolio_type filtered.

Definition main (f : files) (a : answers) : ui unit :=
  emit (Heading "Risk profile assessment") ;;
  emit (Heading "Investor profile questionnaire") ;;
  emit (Prose "introduction") ;;
  '(time_horizon_score, _) <- render_time_horizon a ;;
  if time_horizon_score <? 3 then
    emit (Info ShortHorizon) ;; ret tt
  else
    '(risk_tolerance_score, _) <- render_risk_tolerance f a ;;
    show_portfolio f time_horizon_score risk_tolerance_score.

(** The [__main__] block: an [Exception] is reported; [st.stop()] is
    not one and passes through. *)
Definition script (f : files) (a : answers) : ui unit :=
  match main f a with
  | (t, Raised e) => (t ++ [Error (Unexpected e)], Done tt)
  | r => r
  end.

End Pandas.

(** *** A reference instance of the two pandas routines

    Insertion sort by weight, and a reader of plain decimal integers.
    They serve to run the model on concrete tables. *)

Definition ordered (ascending : bool) (a b : string * Z) : bool :=
  if ascending then snd a <=? snd b else snd b <=? snd a.

Fixpoint insert_by (ascending : bool) (x : string * Z)
         (l : list (string * Z)) : list (string * Z) :=
  match l with
  | [] => [x]
  | y :: r => if ordered ascending x y then x :: l
              else y :: insert_by ascending x r
  end.

Definition insertion_sort (ascending : bool) (l : list (string * Z))
  : list (string * Z) :=
  fold_right (insert_by ascending) [] l.

Definition read_decimal (s : string) : option number :=
  option_map NInt (PyInt.of_str s).

(** The same sort fed with the rows in reverse: it meets the same
    contract and orders equal weights the other way round. *)
Definition insertion_sort_rev (ascending : bool) (l : list (string * Z))
  : list (string * Z) :=
  insertion_sort ascending (rev l).

(* ------------------------------------------------------------------ *)
(** ** Vocabulary of the statements *)

(** The frame [load_csv] returns for a file. *)
Definition frame_of (c : csv_file) : DataFrame :=
  match c with
  | Parsed df => df
  | Absent | Unreadable => empty_frame
  end.

(** The guard of line 138. *)
Definition plan_table_usable (df : DataFrame) : bool :=
  negb (df_empty df) && has_column df "Plan" && has_column df "Points".

(** The raw sum of lines 156-162 for given plan points. *)
Definition raw_risk_sum (a : answers) (q7_points : Z) : Z :=
  dict_get q3 (a3 a) 0 + dict_get q4 (a4 a) 0
  + dict_get q5 (a5 a) 0 + dict_get q6 (a6 a) 0 + q7_points.

Definition risk_scores (a : answers) : dict :=
  [("question_3", dict_get q3 (a3 a) 0); ("question_4", dict_get q4 (a4 a) 0);
   ("question_5", dict_get q5 (a5 a) 0); ("question_6", dict_get q6 (a6 a) 0)].

Definition questions : list dict := [q1; q2; q3; q4; q5; q6].

(** A matrix row is the row of a time horizon score. *)
Definition horizon_matches (cols : list string) (th : Z) (r : list cell)
  : bool :=
  py_eq (get cols "Time_horizon_score" r) (CInt th).

(** A catalog row is a row of a portfolio type: its [type_name] is a
    string that equals the type once lowercased. *)
Definition type_matches (cols : list string) (ptype : string) (r : list cell)
  : bool :=
  match get cols "type_name" r with
  | CStr t => String.eqb (PyStr.lower t) ptype
  | _ => false
  end.

(** The key that line 201 makes of a matrix cell. *)
Definition type_key (c : cell) : string :=
  PyStr.lower (PyStr.strip (py_str c)).

(** A catalog row as [filtered] holds it: [type_name] lowercased. *)
Definition normalized (cols : list string) (r : list cell) : list cell :=
  match index_of "type_name" cols with
  | Some i => set_cell i str_lower_cell r
  | None => r
  end.

(** Rewriting the strings of cells by [g]; with [lower (g s) = lower s]
    this changes their casing only. *)
Definition recase_cell (g : string -> string) (c : cell) : cell :=
  match c with
  | CStr s => CStr (g s)
  | _ => c
  end.

Definition recase_matrix (g : string -> string) (m : DataFrame) : DataFrame :=
  mkDF (columns m) (map (map (recase_cell g)) (rows m)).

Definition recase_catalog (g : string -> string) (c : DataFrame) : DataFrame :=
  match index_of "type_name" (columns c) with
  | Some i => mkDF (columns c) (map (set_cell i (recase_cell g)) (rows c))
  | None => c
  end.

(** The rows of [comp] before they are sorted. *)
Definition weight_cells (cols : list string) (row0 : list cell)
  : list cell :=
  map (fun c => get cols c row0) comp_cols.

Definition weights_of (to_numeric_str : string -> option number)
           (cols : list string) (row0 : list cell) : list (string * Z) :=
  map (fun c => (rename_column c,
                 coerce_weight to_numeric_str
                   (float_column to_numeric_str (weight_cells cols row0))
                   (get cols c row0)))
      comp_cols.

Definition by_weight (ascending : bool) (a b : string * Z) : Prop :=
  ordered ascending a b = true.

(** What the statements assume of [sort_values]. *)
Definition sorts (sort_values : bool -> list (string * Z) -> list (string * Z))
  : Prop :=
  forall ascending l,
    Permutation l (sort_values ascending l)
    /\ Sorted (by_weight ascending) (sort_values ascending l).



(* ------------------------------------------------------------------ *)
(** ** Sample tables *)

Definition sample_plans : DataFrame :=
  mkDF ["Plan"; "Best case"; "Worst case"; "Points"]
       [ [CStr "Plan A"; CStr "10%"; CStr "-2%"; CInt 0];
         [CStr "Plan B"; CStr "25%"; CStr "-10%"; CInt 11] ].

Definition sample_matrix : DataFrame :=
  mkDF ["Time_horizon_score"; "20"; "40"]
       [ [CInt 5; CStr " Growth "; CStr "Aggressive"];
         [CInt 5; CStr "income"; CStr "income"];
         [CInt 18; CStr "balanced"; CStr "Income"] ].

Definition catalog_columns : list string :=
  ["type_name"; "investor_type";
   "average_annual_return"; "best_year"; "worst_year";
   "large_cap_equity"; "small_cap_equity"; "international_equity";
   "fixed_income"; "cash_investments"].

Definition income_row : list cell :=
  [CStr "Income"; CStr "steady income"; CFloat (7 # 2) "3.5";
   CInt 12; CInt (-4); CInt 20; CInt 0; CInt 5; CInt 50; CInt 25].

Definition growth_row : list cell :=
  [CStr "GROWTH"; CStr "long-term growth"; CFloat (15 # 2) "7.5";
   CInt 30; CInt (-20); CInt 40; CInt 20; CInt 20; CInt 20; CInt 0].

Definition second_growth_row : list cell :=
  [CStr "growth"; CStr "another growth"; CFloat (17 # 2) "8.5";
   CInt 31; CInt (-21); CInt 1; CInt 2; CInt 3; CInt 4; CInt 5].

(** A row whose large-cap weight is negative, whose small-cap weight is a
    float, whose fixed-income weight is text and whose cash weight is
    missing. *)
Definition odd_row : list cell :=
  [CStr "aggressive"; CStr "odd weights"; CInt 9; CInt 40; CInt (-30);
   CInt (-5); CFloat (25 # 2) "12.5"; CInt 30; CStr "n/a %"; CNaN].

Definition sample_catalog : DataFrame :=
  mkDF catalog_columns
       [income_row; growth_row; second_growth_row; odd_row].

Definition sample_files : files :=
  mkFiles (Parsed sample_plans) (Parsed sample_matrix) (Parsed sample_catalog).

(** Raw risk sum 10 + 8 + 8 + 8 + 11 = 45; time horizon 10 + 8 = 18. *)
Definition bold_answers : answers :=
  mkAnswers "11 years or more" "11 years or more" "Extensive"
    "Take above average risks expecting to earn above average returns"
    "International securities and/or international funds"
    "Buy more shares" (CStr "Plan B").

(** Time horizon 1 + 0 = 1. *)
Definition short_answers : answers :=
  mkAnswers "Less than 3 years" "Less than 2 years" "Extensive"
    "Take above average risks expecting to earn above average returns"
    "International securities and/or international funds"
    "Buy more shares" (CStr "Plan B").

(** The sample files with the second growth row taken out of the
    catalog. *)
Definition sample_files_unique : files :=
  mkFiles (Parsed sample_plans) (Parsed sample_matrix)
          (Parsed (mkDF catalog_columns [income_row; growth_row; odd_row])).

(** A matrix file that holds its header line and no row. *)
Definition header_only_matrix : DataFrame :=
  mkDF ["Time_horizon_score"; "20"; "40"] [].

Definition header_only_files : files :=
  mkFiles (Parsed sample_plans) (Parsed header_only_matrix)
          (Parsed sample_catalog).

(** A catalog whose type names are codes, not text. *)
Definition coded_catalog : DataFrame :=
  mkDF ["type_name"; "investor_type"] [ [CInt 7; CStr "Growth investor"] ].

Definition coded_files : files :=
  mkFiles (Parsed sample_plans) (Parsed sample_matrix) (Parsed coded_catalog).

(** A catalog row whose cash weight is infinite. *)
Definition unbounded_row : list cell :=
  [CStr "Income"; CStr "unbounded cash"; CInt 5; CInt 15; CInt (-10);
   CInt 30; CInt 10; CInt 10; CInt 30; CInf false].

Definition unbounded_files : files :=
  mkFiles (Parsed sample_plans) (Parsed sample_matrix)
          (Parsed (mkDF catalog_columns [unbounded_row; growth_row])).

(* ------------------------------------------------------------------ *)
(** ** Vocabulary of the further properties *)

(** What [load_csv] shows for a file: an error unless it parses. *)
Definition load_notice (path : string) (c : csv_file) : list event :=
  match c with
  | Absent => [Error (FileNotFound path)]
  | Unreadable => [Error (CouldNotRead path)]
  | Parsed _ => []
  end.

(** The notices of the two loads of [show_portfolio], in their order. *)
Definition load_notices (f : files) : list event :=
  load_notice RISK_MATRIX_CSV (risk_matrix f)
  ++ load_notice PORTFOLIO_TYPE_CSV (portfolio_type f).

(** What [main] shows before the time horizon section. *)
Definition introduction : list event :=
  [Heading "Risk profile assessment";
   Heading "Investor profile questionnaire"; Prose "introduction"].

Definition time_horizon_score (a : answers) : Z :=
  dict_get q1 (a1 a) 0 + dict_get q2 (a2 a) 0.

(** One label per question out of the question's table. *)
Definition valid_answers (a : answers) : Prop :=
  In (a1 a) (keys q1) /\ In (a2 a) (keys q2) /\ In (a3 a) (keys q3)
  /\ In (a4 a) (keys q4) /\ In (a5 a) (keys q5) /\ In (a6 a) (keys q6).

(** A cell that holds no number: text or a missing value. *)
Definition not_a_number (c : cell) : bool :=
  match c with
  | CStr _ | CNaN => true
  | CInt _ | CFloat _ _ | CInf _ => false
  end.



(** A matrix whose [Time_horizon_score] column was read as text. *)
Definition text_matrix : DataFrame :=
  mkDF ["Time_horizon_score"; "20"]
       [ [CStr "5"; CStr "growth"]; [CNaN; CStr "income"] ].

(** A matrix whose [Time_horizon_score] column is of floats, as pandas
    makes it when a score is missing. *)
Definition float_matrix : DataFrame :=
  mkDF ["Time_horizon_score"; "20"]
       [ [CFloat (5 # 1) "5.0"; CStr "growth"]; [CNaN; CStr "income"] ].

(** A plan table whose second plan has no points. *)
Definition gappy_plans : DataFrame :=
  mkDF ["Plan"; "Best case"; "Points"]
       [ [CStr "Plan A"; CStr "10%"; CInt 3];
         [CStr "Plan B"; CStr "25%"; CNaN] ].

(** A catalog whose type names are numbers. *)
Definition numbered_catalog : DataFrame :=
  mkDF ["type_name"; "investor_type"] [ [CInt 1; CStr "first"] ].

(** A catalog whose only type name carries a trailing blank. *)
Definition untrimmed_catalog : DataFrame :=
  mkDF ["type_name"; "investor_type"] [ [CStr "growth "; CStr "padded"] ].

(** What [render_risk_tolerance] shows before question 7. *)
Definition risk_questions : list event :=
  [Heading "Risk tolerance";
   Radio "q3" (map CStr (keys q3)); Radio "q4" (map CStr (keys q4));
   Radio "q5" (map CStr (keys q5)); Radio "q6" (map CStr (keys q6))].

Definition gappy_files : files :=
  mkFiles (Parsed gappy_plans) (Parsed sample_matrix) (Parsed sample_catalog).

(** The weight columns exist and the first row holds an infinite weight:
    line 256 raises. *)
Definition cast_fails (to_numeric_str : string -> option number)
           (filtered : DataFrame) : bool :=
  match rows filtered with
  | [] => false
  | row0 :: _ =>
      forallb (has_column filtered) comp_cols
      && negb (castable to_numeric_str
                        (weight_cells (columns filtered) row0))
  end.

(** An event that shows part of a portfolio. *)
Definition shows_portfolio (e : event) : bool :=
  match e with
  | Profile _ _ | ReturnsTable _ | Suggestion _ | BarChart _ => true
  | _ => false
  end.

(* ------------------------------------------------------------------ *)
(** * Properties *)

(** ** The trace monad *)

Lemma result_bind {A B} (m : ui A) (k : A -> ui B) :
  result (bind m k) =
  match result m with
  | Done a => result (k a)
  | Stopped => Stopped
  | Raised e => Raised e
  end.
Proof.
  destruct m as [t [a| |e]]; simpl; try reflexivity.
  destruct (k a); reflexivity.
Qed.

Lemma load_csv_result path c : result (load_csv path c) = Done (frame_of c).
Proof. destruct c; reflexivity. Qed.

(** ** Dictionaries *)

Lemma dict_get_in (d : dict) k v default :
  NoDup (keys d) -> In (k, v) d -> dict_get d k default = v.
Proof.
  induction d as [|[k' v'] d IH]; simpl; intros Hnd Hin; [easy|].
  inversion Hnd as [|? ? Hnotin Hnd']; subst.
  destruct Hin as [Heq|Hin].
  - inversion Heq; subst. now rewrite String.eqb_refl.
  - destruct (String.eqb_spec k' k) as [->|Hne].
    + exfalso. apply Hnotin. unfold keys. change k with (fst (k, v)).
      now apply in_map.
    + now apply IH.
Qed.

Lemma dict_get_notin (d : dict) k default :
  ~ In k (keys d) -> dict_get d k default = default.
Proof.
  induction d as [|[k' v'] d IH]; simpl; intros Hnotin; [easy|].
  destruct (String.eqb_spec k' k) as [->|Hne].
  - exfalso. apply Hnotin. now left.
  - apply IH. intros Hin. apply Hnotin. now right.
Qed.

Lemma questions_nodup d : In d questions -> NoDup (keys d).
Proof.
  unfold questions. simpl.
  intros [<-|[<-|[<-|[<-|[<-|[<-|[]]]]]]];
    repeat (constructor; [simpl; intros H;
      repeat (destruct H as [H|H]; [discriminate H|]); exact H|]);
    constructor.
Qed.

(** ** Scoring *)

Lemma score_from_radio_eq d key choice :
  score_from_radio d key choice =
  ([Radio key (map CStr (keys d))], Done (dict_get d choice 0)).
Proof. reflexivity. Qed.

Lemma render_time_horizon_eq a :
  render_time_horizon a =
  ([Heading "Risk profile"; Heading "Time horizon";
    Radio "q1" (map CStr (keys q1)); Radio "q2" (map CStr (keys q2));
    ScoreLine "Time horizon score"
              (dict_get q1 (a1 a) 0 + dict_get q2 (a2 a) 0)],
   Done (dict_get q1 (a1 a) 0 + dict_get q2 (a2 a) 0,
         [("question_1", dict_get q1 (a1 a) 0);
          ("question_2", dict_get q2 (a2 a) 0)])).
Proof. reflexivity. Qed.

Lemma render_risk_tolerance_result f a :
  result (render_risk_tolerance f a) =
  match result (plan_points f (a7 a)) with
  | Done p => Done (Z.min (raw_risk_sum a p) 40, risk_scores a)
  | Stopped => Stopped
  | Raised e => Raised e
  end.
Proof.
  unfold render_risk_tolerance.
  destruct (plan_points f (a7 a)) as [t [p| |e]]; reflexivity.
Qed.

Lemma filter_first {A} (p : A -> bool) pre r post :
  Forall (fun x => p x = false) pre -> p r = true ->
  filter p (pre ++ r :: post) = r :: filter p post.
Proof.
  intros Hpre Hr. induction Hpre as [|x pre Hx _ IH]; simpl.
  - now rewrite Hr.
  - now rewrite Hx.
Qed.

Lemma filter_none {A} (p : A -> bool) l :
  Forall (fun x => p x = false) l -> filter p l = [].
Proof.
  induction 1 as [|x l Hx _ IH]; simpl; [reflexivity|]. now rewrite Hx.
Qed.

Lemma plan_points_result f choice :
  result (plan_points f choice) =
  let df := frame_of (question_7 f) in
  if plan_table_usable df then
    match rows_where df "Plan" choice with
    | [] => Done 0
    | r :: _ =>
        match PyInt.of_cell (get (columns df) "Points" r) with
        | inr z => Done z
        | inl e => Raised e
        end
    end
  else Done 0.
Proof.
  unfold plan_points. rewrite result_bind, load_csv_result.
  cbv zeta. unfold plan_table_usable.
  destruct (negb (df_empty (frame_of (question_7 f)))
            && has_column (frame_of (question_7 f)) "Plan"
            && has_column (frame_of (question_7 f)) "Points").
  - destruct (rows_where (frame_of (question_7 f)) "Plan" choice) as [|r ?];
      [reflexivity|].
    cbn [map].
    destruct (PyInt.of_cell _); reflexivity.
  - reflexivity.
Qed.

(** C3. For every valid answer selection the time horizon score is exactly
    the sum of the points of the two selected labels of questions 1 and 2;
    no cap is applied.  The same sum is the score shown. *)
Theorem time_horizon_score_is_sum (a : answers) (v1 v2 : Z) :
  In (a1 a, v1) q1 -> In (a2 a, v2) q2 ->
  result (render_time_horizon a)
  = Done (v1 + v2, [("question_1", v1); ("question_2", v2)])
  /\ In (ScoreLine "Time horizon score" (v1 + v2))
        (trace (render_time_horizon a)).
Proof.
  intros H1 H2. rewrite render_time_horizon_eq.
  rewrite (dict_get_in q1 (a1 a) v1 0), (dict_get_in q2 (a2 a) v2 0);
    try assumption; try (apply questions_nodup; unfold questions; simpl; tauto).
  split; [reflexivity|]. simpl. tauto.
Qed.

Lemma time_horizon_score_is_sum_witness :
  result (render_time_horizon bold_answers)
  = Done (10 + 8, [("question_1", 10); ("question_2", 8)])
  /\ In (ScoreLine "Time horizon score" (10 + 8))
        (trace (render_time_horizon bold_answers)).
Proof.
  apply (time_horizon_score_is_sum bold_answers 10 8); simpl; tauto.
Defined.

(** C7. For each of the six questions, the score of a selected label is
    the integer the question's table maps it to, and a label the table does
    not hold scores 0; in both cases [score_from_radio] returns, it never
    raises. *)
Theorem score_from_radio_lookup (d : dict) (key choice : string) :
  In d questions ->
  (forall v, In (choice, v) d ->
             result (score_from_radio d key choice) = Done v)
  /\ (~ In choice (keys d) ->
      result (score_from_radio d key choice) = Done 0)
  /\ (exists v, result (score_from_radio d key choice) = Done v).
Proof.
  intros Hd. rewrite score_from_radio_eq. unfold result. simpl snd.
  repeat split.
  - intros v Hin. f_equal. apply dict_get_in; [now apply questions_nodup|easy].
  - intros Hnot. f_equal. now apply dict_get_notin.
  - eexists. reflexivity.
Qed.

Lemma score_from_radio_lookup_witness :
  result (score_from_radio q3 "q3" "Good") = Done 7
  /\ result (score_from_radio q3 "q3" "Excellent") = Done 0.
Proof.
  split.
  - apply (score_from_radio_lookup q3 "q3" "Good");
      [unfold questions; simpl; tauto | simpl; tauto].
  - apply (score_from_radio_lookup q3 "q3" "Excellent");
      [unfold questions; simpl; tauto | simpl; intuition discriminate].
Defined.

(** C1. For every valid answer selection for which question 7 yields
    [p] points, the risk tolerance score is
    [min (score q3 + score q4 + score q5 + score q6 + p) 40]; whenever the
    raw sum reaches 40 or more (45, say) the score is 40. *)
Theorem risk_tolerance_score_capped (f : files) (a : answers)
        (v3 v4 v5 v6 p : Z) :
  In (a3 a, v3) q3 -> In (a4 a, v4) q4 ->
  In (a5 a, v5) q5 -> In (a6 a, v6) q6 ->
  result (plan_points f (a7 a)) = Done p ->
  result (render_risk_tolerance f a)
  = Done (Z.min (v3 + v4 + v5 + v6 + p) 40,
          [("question_3", v3); ("question_4", v4);
           ("question_5", v5); ("question_6", v6)])
  /\ (40 <= v3 + v4 + v5 + v6 + p ->
      result (render_risk_tolerance f a)
      = Done (40, [("question_3", v3); ("question_4", v4);
                   ("question_5", v5); ("question_6", v6)])).
Proof.
  intros H3 H4 H5 H6 Hp.
  rewrite render_risk_tolerance_result, Hp.
  unfold raw_risk_sum, risk_scores.
  rewrite (dict_get_in q3 (a3 a) v3 0), (dict_get_in q4 (a4 a) v4 0),
          (dict_get_in q5 (a5 a) v5 0), (dict_get_in q6 (a6 a) v6 0);
    try assumption; try (apply questions_nodup; unfold questions; simpl; tauto).
  split; [reflexivity|].
  intros Hcap. now rewrite Z.min_r by lia.
Qed.

Lemma risk_tolerance_score_capped_witness :
  result (render_risk_tolerance sample_files bold_answers)
  = Done (Z.min (10 + 8 + 8 + 8 + 11) 40,
          [("question_3", 10); ("question_4", 8);
           ("question_5", 8); ("question_6", 8)])
  /\ (40 <= 10 + 8 + 8 + 8 + 11 ->
      result (render_risk_tolerance sample_files bold_answers)
      = Done (40, [("question_3", 10); ("question_4", 8);
                   ("question_5", 8); ("question_6", 8)])).
Proof.
  apply (risk_tolerance_score_capped sample_files bold_answers 10 8 8 8 11);
    solve [reflexivity | simpl; tauto].
Defined.

(** C8. The points of question 7 are the [Points], read by [int], of the
    first row of the plan table whose [Plan] equals the selection; an
    integer [Points] is returned as it is.  When the table is
    missing, empty or lacks the [Plan] or [Points] column, or when no row
    has the selected plan, the contribution is 0, nothing is raised and
    the risk tolerance score is computed from the four questions alone. *)
Theorem plan_points_default (f : files) (a : answers) :
  (plan_table_usable (frame_of (question_7 f)) = false
   \/ Forall (fun r => py_eq (get (columns (frame_of (question_7 f)))
                                  "Plan" r) (a7 a) = false)
             (rows (frame_of (question_7 f))) ->
   result (plan_points f (a7 a)) = Done 0
   /\ result (render_risk_tolerance f a)
      = Done (Z.min (raw_risk_sum a 0) 40, risk_scores a))
  /\ (forall pre r post p,
        plan_table_usable (frame_of (question_7 f)) = true ->
        rows (frame_of (question_7 f)) = pre ++ r :: post ->
        Forall (fun r => py_eq (get (columns (frame_of (question_7 f)))
                                    "Plan" r) (a7 a) = false) pre ->
        py_eq (get (columns (frame_of (question_7 f))) "Plan" r) (a7 a)
        = true ->
        PyInt.of_cell (get (columns (frame_of (question_7 f))) "Points" r)
        = inr p ->
        result (plan_points f (a7 a)) = Done p)
  /\ (forall z, PyInt.of_cell (CInt z) = inr z).
Proof.
  split.
  - intros H.
    assert (Hp : result (plan_points f (a7 a)) = Done 0).
    { rewrite plan_points_result. cbv zeta.
      destruct (plan_table_usable (frame_of (question_7 f))) eqn:Hu;
        [|reflexivity].
      destruct H as [H|H]; [discriminate H|].
      unfold rows_where. now rewrite filter_none. }
    split; [exact Hp|].
    now rewrite render_risk_tolerance_result, Hp.
  - split; [|reflexivity].
    intros pre r post p Hu Hrows Hpre Hr Hpts.
    rewrite plan_points_result. cbv zeta. rewrite Hu.
    unfold rows_where. rewrite Hrows.
    rewrite (filter_first _ pre r post Hpre Hr).
    now rewrite Hpts.
Qed.

Lemma plan_points_default_witness :
  result (plan_points (mkFiles Absent Absent Absent) (CStr "Plan B")) = Done 0
  /\ result (plan_points sample_files (CStr "Plan Z")) = Done 0
  /\ result (plan_points sample_files (CStr "Plan B")) = Done 11.
Proof.
  split; [|split].
  - apply (plan_points_default (mkFiles Absent Absent Absent) bold_answers).
    left. reflexivity.
  - apply (plan_points_default sample_files
             (mkAnswers "" "" "" "" "" "" (CStr "Plan Z"))).
    right. repeat constructor.
  - apply (proj1 (proj2 (plan_points_default sample_files bold_answers))
             [ [CStr "Plan A"; CStr "10%"; CStr "-2%"; CInt 0] ]
             [CStr "Plan B"; CStr "25%"; CStr "-10%"; CInt 11] [] 11);
      try reflexivity.
    repeat constructor.
Defined.

(** ** The short-horizon branch *)

(** C2. Whenever the time horizon score is below 3, [main] ends right
    after the time horizon section with the fixed message that suggests
    40% short-term bonds and 60% cash investments: the risk tolerance
    questions are not asked, no table is loaded or looked up, and the
    files, the answers to questions 3 to 7 and the pandas routines have no
    influence on the outcome.  The script as a whole behaves the same. *)
Theorem short_horizon_short_circuit
        (to_numeric_str : string -> option number)
        (sort_values : bool -> list (string * Z) -> list (string * Z))
        (f : files) (a : answers) :
  dict_get q1 (a1 a) 0 + dict_get q2 (a2 a) 0 < 3 ->
  main to_numeric_str sort_values f a
  = ([Heading "Risk profile assessment";
      Heading "Investor profile questionnaire"; Prose "introduction";
      Heading "Risk profile"; Heading "Time horizon";
      Radio "q1" (map CStr (keys q1)); Radio "q2" (map CStr (keys q2));
      ScoreLine "Time horizon score"
                (dict_get q1 (a1 a) 0 + dict_get q2 (a2 a) 0);
      Info ShortHorizon], Done tt)
  /\ script to_numeric_str sort_values f a
     = main to_numeric_str sort_values f a.
Proof.
  intros H. apply Z.ltb_lt in H.
  assert (Hmain : main to_numeric_str sort_values f a
    = ([Heading "Risk profile assessment";
        Heading "Investor profile questionnaire"; Prose "introduction";
        Heading "Risk profile"; Heading "Time horizon";
        Radio "q1" (map CStr (keys q1)); Radio "q2" (map CStr (keys q2));
        ScoreLine "Time horizon score"
                  (dict_get q1 (a1 a) 0 + dict_get q2 (a2 a) 0);
        Info ShortHorizon], Done tt)).
  { unfold main. rewrite render_time_horizon_eq.
    cbv beta iota delta [bind emit ret app].
    rewrite H. reflexivity. }
  split; [exact Hmain|].
  unfold script. now rewrite Hmain.
Qed.

Lemma short_horizon_short_circuit_witness :
  main read_decimal insertion_sort sample_files short_answers
  = ([Heading "Risk profile assessment";
      Heading "Investor profile questionnaire"; Prose "introduction";
      Heading "Risk profile"; Heading "Time horizon";
      Radio "q1" (map CStr (keys q1)); Radio "q2" (map CStr (keys q2));
      ScoreLine "Time horizon score" 1;
      Info ShortHorizon], Done tt).
Proof.
  apply (short_horizon_short_circuit read_decimal insertion_sort
           sample_files short_answers).
  simpl. lia.
Defined.

(** ** Cells of a row *)

Lemma nth_set_cell_same f i : forall r,
  nth i (set_cell i f r) CNaN = f (nth i r CNaN).
Proof.
  induction i as [|i IH]; intros [|c r]; simpl; try reflexivity.
  - rewrite IH. now destruct i.
  - apply IH.
Qed.

Lemma nth_set_cell_other f i : forall j r,
  i <> j -> nth j (set_cell i f r) CNaN = nth j r CNaN.
Proof.
  induction i as [|i IH]; intros [|j] [|c r] Hne; simpl;
    try reflexivity; try congruence.
  - now destruct j.
  - rewrite IH by congruence. now destruct j.
  - apply IH. congruence.
Qed.

Lemma index_of_nth name : forall cols i,
  index_of name cols = Some i -> nth_error cols i = Some name.
Proof.
  induction cols as [|c cols IH]; simpl; intros i H; [discriminate|].
  destruct (String.eqb_spec c name) as [->|Hne].
  - now inversion H.
  - destruct (index_of name cols) as [j|]; [|discriminate].
    inversion H; subst. simpl. now apply IH.
Qed.

Lemma has_column_index df name :
  has_column df name = true -> exists i, index_of name (columns df) = Some i.
Proof.
  unfold has_column. induction (columns df) as [|c cols IH]; simpl;
    [discriminate|].
  rewrite String.eqb_sym.
  destruct (String.eqb c name); [now eexists|].
  simpl. intros H. destruct (IH H) as [i ->]. now eexists.
Qed.

Lemma get_set_cell_same cols name i f r :
  index_of name cols = Some i ->
  get cols name (set_cell i f r) = f (get cols name r).
Proof. unfold get. intros ->. apply nth_set_cell_same. Qed.

Lemma get_set_cell_other cols name other i f r :
  index_of name cols = Some i -> other <> name ->
  get cols other (set_cell i f r) = get cols other r.
Proof.
  unfold get. intros Hi Hne.
  destruct (index_of other cols) as [j|] eqn:Hj; [|reflexivity].
  apply nth_set_cell_other. intros ->.
  apply index_of_nth in Hi. apply index_of_nth in Hj. congruence.
Qed.

(** ** Evaluating the lookup *)

Lemma bind_ret {A B} (a : A) (k : A -> ui B) : bind (ret a) k = k a.
Proof. unfold bind, ret. now destruct (k a). Qed.

Lemma lookup_type_eq f m c th rt :
  risk_matrix f = Parsed m -> portfolio_type f = Parsed c ->
  df_empty m = false -> df_empty c = false ->
  has_column m "Time_horizon_score" = true ->
  lookup_type f th rt =
  if has_column m (PyStr.of_int rt) then
    match rows_where m "Time_horizon_score" (CInt th) with
    | [] => ([Warning (NoRowFor th)], Stopped)
    | row0 :: _ =>
        let t := type_key (get (columns m) (PyStr.of_int rt) row0) in
        ([TypeHeading t], Done (t, c))
    end
  else ([Warning (NoColumnFor (PyStr.of_int rt))], Stopped).
Proof.
  intros Hm Hc Hem Hec Hth. unfold lookup_type. rewrite Hm, Hc.
  change (load_csv RISK_MATRIX_CSV (Parsed m)) with (ret m).
  change (load_csv PORTFOLIO_TYPE_CSV (Parsed c)) with (ret c).
  rewrite !bind_ret. rewrite Hem, Hec, Hth. cbn [orb negb].
  destruct (has_column m (PyStr.of_int rt)); cbn [negb]; [|reflexivity].
  destruct (rows_where m "Time_horizon_score" (CInt th)); reflexivity.
Qed.

Lemma filter_map {A B} (p : B -> bool) (g : A -> B) l :
  filter p (map g l) = map g (filter (fun x => p (g x)) l).
Proof.
  induction l as [|x l IH]; simpl; [reflexivity|].
  destruct (p (g x)); simpl; now rewrite IH.
Qed.

Lemma type_matches_normalized cols i ptype r :
  index_of "type_name" cols = Some i ->
  py_eq (get cols "type_name" (set_cell i str_lower_cell r)) (CStr ptype)
  = type_matches cols ptype r.
Proof.
  intros Hi. rewrite (get_set_cell_same _ _ _ _ _ Hi). unfold type_matches.
  now destruct (get cols "type_name" r).
Qed.

Lemma lookup_details_eq c ptype :
  has_column c "type_name" = true ->
  existsb is_str (column c "type_name") = true ->
  lookup_details c ptype =
  match filter (type_matches (columns c) ptype) (rows c) with
  | [] => ([Warning (NoDetailsFor ptype)], Stopped)
  | r :: l =>
      ([], Done (mkDF (columns c) (map (normalized (columns c)) (r :: l))))
  end.
Proof.
  intros Hcol Hstr. unfold lookup_details, str_lower_column.
  rewrite Hcol, Hstr. cbn [negb].
  destruct (has_column_index _ _ Hcol) as [i Hi]. rewrite Hi.
  unfold rows_where. cbn [columns rows].
  rewrite filter_map.
  rewrite (filter_ext _ (type_matches (columns c) ptype))
    by (intros r; now apply type_matches_normalized).
  unfold normalized. rewrite Hi.
  destruct (filter (type_matches (columns c) ptype) (rows c)); reflexivity.
Qed.

Lemma resolve_eq f m c th rt :
  risk_matrix f = Parsed m -> portfolio_type f = Parsed c ->
  df_empty m = false -> df_empty c = false ->
  has_column m "Time_horizon_score" = true ->
  resolve f th rt =
  if has_column m (PyStr.of_int rt) then
    match rows_where m "Time_horizon_score" (CInt th) with
    | [] => ([Warning (NoRowFor th)], Stopped)
    | row0 :: _ =>
        let t := type_key (get (columns m) (PyStr.of_int rt) row0) in
        bind (emit (TypeHeading t))
             (fun _ => bind (lookup_details c t)
                            (fun filtered => ret (t, filtered)))
    end
  else ([Warning (NoColumnFor (PyStr.of_int rt))], Stopped).
Proof.
  intros Hm Hc Hem Hec Hth. unfold resolve.
  rewrite (lookup_type_eq f m c th rt Hm Hc Hem Hec Hth).
  destruct (has_column m (PyStr.of_int rt)); [|reflexivity].
  destruct (rows_where m "Time_horizon_score" (CInt th)); [reflexivity|].
  cbv zeta. unfold bind at 1. unfold emit.
  destruct (lookup_details c _) as [t [d| |e]]; reflexivity.
Qed.

Lemma show_portfolio_halts
      (to_numeric_str : string -> option number)
      (sort_values : bool -> list (string * Z) -> list (string * Z))
      f th rt t :
  resolve f th rt = (t, Stopped) ->
  show_portfolio to_numeric_str sort_values f th rt = (t, Stopped).
Proof. intros H. unfold show_portfolio. now rewrite H. Qed.

Lemma rows_where_none m th :
  Forall (fun r => horizon_matches (columns m) th r = false) (rows m) ->
  rows_where m "Time_horizon_score" (CInt th) = [].
Proof. intros H. unfold rows_where. now apply filter_none. Qed.

Lemma rows_where_first m th pre r post :
  rows m = pre ++ r :: post ->
  Forall (fun r => horizon_matches (columns m) th r = false) pre ->
  horizon_matches (columns m) th r = true ->
  exists rest, rows_where m "Time_horizon_score" (CInt th) = r :: rest.
Proof.
  intros Hrows Hpre Hr. unfold rows_where. rewrite Hrows.
  eexists. now apply filter_first.
Qed.

Lemma py_eq_int z th : py_eq (CInt z) (CInt th) = true <-> z = th.
Proof. simpl. apply Z.eqb_eq. Qed.

(** ** Lookup misses *)

(** C4, as the code has it.  [show_portfolio] is what [main] runs once
    the time horizon score is 3 or more.  When both tables are loaded and
    hold at least one row, the matrix has its [Time_horizon_score] column
    and, for the third step, the catalog has a [type_name] column with
    text in it, a failed exact match at any of the three steps - no column
    named by the decimal string of the risk tolerance score, no row with
    the time horizon score, no catalog row for the portfolio type - stops
    the evaluation with the warning of that step.  Nothing but the warning
    (and, at the third step, the heading of the type that was looked up)
    is shown: no profile, no returns, no chart, hence no substitute
    portfolio. *)
Theorem lookup_miss_halts
        (to_numeric_str : string -> option number)
        (sort_values : bool -> list (string * Z) -> list (string * Z))
        (f : files) (m c : DataFrame) (th rt : Z) :
  risk_matrix f = Parsed m -> portfolio_type f = Parsed c ->
  df_empty m = false -> df_empty c = false ->
  has_column m "Time_horizon_score" = true ->
  (has_column m (PyStr.of_int rt) = false ->
   show_portfolio to_numeric_str sort_values f th rt
   = ([Warning (NoColumnFor (PyStr.of_int rt))], Stopped))
  /\ (has_column m (PyStr.of_int rt) = true ->
      Forall (fun r => horizon_matches (columns m) th r = false) (rows m) ->
      show_portfolio to_numeric_str sort_values f th rt
      = ([Warning (NoRowFor th)], Stopped))
  /\ (forall pre r post,
        has_column m (PyStr.of_int rt) = true ->
        rows m = pre ++ r :: post ->
        Forall (fun r => horizon_matches (columns m) th r = false) pre ->
        horizon_matches (columns m) th r = true ->
        has_column c "type_name" = true ->
        existsb is_str (column c "type_name") = true ->
        Forall (fun k =>
                  type_matches (columns c)
                    (type_key (get (columns m) (PyStr.of_int rt) r)) k
                  = false) (rows c) ->
        show_portfolio to_numeric_str sort_values f th rt
        = ([TypeHeading (type_key (get (columns m) (PyStr.of_int rt) r));
            Warning (NoDetailsFor
                       (type_key (get (columns m) (PyStr.of_int rt) r)))],
           Stopped)).
Proof.
  intros Hm Hc Hem Hec Hth.
  pose proof (resolve_eq f m c th rt Hm Hc Hem Hec Hth) as Hres.
  repeat split.
  - intros Hcol. apply show_portfolio_halts. now rewrite Hres, Hcol.
  - intros Hcol Hnone. apply show_portfolio_halts.
    now rewrite Hres, Hcol, rows_where_none.
  - intros pre r post Hcol Hrows Hpre Hr Htn Hstr Hnone.
    apply show_portfolio_halts. rewrite Hres, Hcol.
    destruct (rows_where_first m th pre r post Hrows Hpre Hr) as [rest ->].
    cbv zeta. rewrite (lookup_details_eq _ _ Htn Hstr).
    now rewrite filter_none.
Qed.

Lemma lookup_miss_halts_witness :
  show_portfolio read_decimal insertion_sort sample_files 5 41
  = ([Warning (NoColumnFor "41")], Stopped)
  /\ show_portfolio read_decimal insertion_sort sample_files 6 40
     = ([Warning (NoRowFor 6)], Stopped)
  /\ show_portfolio read_decimal insertion_sort sample_files 18 20
     = ([TypeHeading "balanced"; Warning (NoDetailsFor "balanced")], Stopped).
Proof.
  pose proof (lookup_miss_halts read_decimal insertion_sort sample_files
                sample_matrix sample_catalog) as H.
  split; [|split].
  - apply (H 5 41); reflexivity.
  - apply (H 6 40); try reflexivity. repeat constructor.
  - apply (proj2 (proj2 (H 18 20 eq_refl eq_refl eq_refl eq_refl eq_refl))
             [ [CInt 5; CStr " Growth "; CStr "Aggressive"];
               [CInt 5; CStr "income"; CStr "income"] ]
             [CInt 18; CStr "balanced"; CStr "Income"] []);
      try reflexivity; repeat constructor.
Defined.

(** C4 as the specification states it fails on two tables the script can
    be given.  A matrix file with its header and no row has no row for
    the time horizon score 5, and the evaluation stops at line 179 with
    nothing shown, no warning either.  A catalog whose type names are
    numbers has no row for the type [growth], and line 210 raises
    [AttributeError] after the heading, which the script reports as an
    unexpected error: no warning of a lookup miss is shown. *)
Lemma miss_without_warning :
  (Forall (fun r => horizon_matches (columns header_only_matrix) 5 r = false)
          (rows header_only_matrix)
   /\ show_portfolio read_decimal insertion_sort header_only_files 5 20
      = ([], Stopped))
  /\ (Forall (fun k => type_matches (columns coded_catalog) "growth" k = false)
             (rows coded_catalog)
      /\ show_portfolio read_decimal insertion_sort coded_files 5 20
         = ([TypeHeading "growth"], Raised AttributeError)).
Proof.
  repeat split; try reflexivity; repeat constructor.
Qed.

(** ** Order of the lookups *)

(** C5, as the code has it.  With both tables loaded, non-empty and the
    matrix holding [Time_horizon_score], the lookup first checks that the
    matrix has the column named by the decimal string of the risk
    tolerance score and warns of that column when it is absent, whatever
    the rows are.  Only then does it select the rows whose
    [Time_horizon_score] equals the time horizon score exactly, warning of
    the row when there is none; the cell is read from the first such row
    at that column. *)
Theorem column_checked_before_row
        (f : files) (m c : DataFrame) (th rt : Z) :
  risk_matrix f = Parsed m -> portfolio_type f = Parsed c ->
  df_empty m = false -> df_empty c = false ->
  has_column m "Time_horizon_score" = true ->
  (has_column m (PyStr.of_int rt) = false ->
   lookup_type f th rt
   = ([Warning (NoColumnFor (PyStr.of_int rt))], Stopped))
  /\ (has_column m (PyStr.of_int rt) = true ->
      Forall (fun r => horizon_matches (columns m) th r = false) (rows m) ->
      lookup_type f th rt = ([Warning (NoRowFor th)], Stopped))
  /\ (forall pre r post,
        has_column m (PyStr.of_int rt) = true ->
        rows m = pre ++ r :: post ->
        Forall (fun r => horizon_matches (columns m) th r = false) pre ->
        horizon_matches (columns m) th r = true ->
        lookup_type f th rt
        = ([TypeHeading (type_key (get (columns m) (PyStr.of_int rt) r))],
           Done (type_key (get (columns m) (PyStr.of_int rt) r), c)))
  /\ (forall r z, get (columns m) "Time_horizon_score" r = CInt z ->
                  (horizon_matches (columns m) th r = true <-> z = th)).
Proof.
  intros Hm Hc Hem Hec Hth.
  pose proof (lookup_type_eq f m c th rt Hm Hc Hem Hec Hth) as Hres.
  split; [|split; [|split]].
  - intros Hcol. now rewrite Hres, Hcol.
  - intros Hcol Hnone. now rewrite Hres, Hcol, rows_where_none.
  - intros pre r post Hcol Hrows Hpre Hr. rewrite Hres, Hcol.
    now destruct (rows_where_first m th pre r post Hrows Hpre Hr) as [rest ->].
  - intros r z Hz. unfold horizon_matches. rewrite Hz. apply py_eq_int.
Qed.

Lemma column_checked_before_row_witness :
  lookup_type sample_files 4 41 = ([Warning (NoColumnFor "41")], Stopped)
  /\ lookup_type sample_files 4 40 = ([Warning (NoRowFor 4)], Stopped)
  /\ lookup_type sample_files 5 20
     = ([TypeHeading "growth"], Done ("growth", sample_catalog)).
Proof.
  pose proof (column_checked_before_row sample_files
                sample_matrix sample_catalog) as H.
  split; [|split].
  - apply (H 4 41); reflexivity.
  - apply (H 4 40); try reflexivity. repeat constructor.
  - apply (proj1 (proj2 (proj2
             (H 5 20 eq_refl eq_refl eq_refl eq_refl eq_refl)))
             [] [CInt 5; CStr " Growth "; CStr "Aggressive"]
             [ [CInt 5; CStr "income"; CStr "income"];
               [CInt 18; CStr "balanced"; CStr "Income"] ]);
      try reflexivity; repeat constructor.
Defined.

(** C5 as stated fails: with time horizon score 4 and risk tolerance score
    41 the sample matrix has neither the row nor the column, and it is the
    missing column that is reported, not the missing row. *)
Lemma missing_column_reported_not_row :
  3 <= 4
  /\ Forall (fun r => horizon_matches (columns sample_matrix) 4 r = false)
            (rows sample_matrix)
  /\ has_column sample_matrix (PyStr.of_int 41) = false
  /\ trace (lookup_type sample_files 4 41) = [Warning (NoColumnFor "41")]
  /\ trace (lookup_type sample_files 4 41) <> [Warning (NoRowFor 4)].
Proof.
  repeat split; try reflexivity; try lia; try discriminate.
  repeat constructor.
Qed.

(** ** Case and whitespace *)

(** A fact about one character is checked on the 256 of them. *)
Ltac by_all_chars c :=
  let b0 := fresh in let b1 := fresh in let b2 := fresh in
  let b3 := fresh in let b4 := fresh in let b5 := fresh in
  let b6 := fresh in let b7 := fresh in
  destruct c as [b0 b1 b2 b3 b4 b5 b6 b7];
  destruct b0, b1, b2, b3, b4, b5, b6, b7; reflexivity.

Lemma is_space_lower_char c :
  PyStr.is_space (PyStr.lower_char c) = PyStr.is_space c.
Proof. by_all_chars c. Qed.

Lemma lower_lstrip s : PyStr.lower (PyStr.lstrip s) = PyStr.lstrip (PyStr.lower s).
Proof.
  induction s as [|c s IH]; [reflexivity|].
  cbn [PyStr.lstrip PyStr.lower]. rewrite is_space_lower_char.
  destruct (PyStr.is_space c); [exact IH|reflexivity].
Qed.

Lemma lower_rstrip s : PyStr.lower (PyStr.rstrip s) = PyStr.rstrip (PyStr.lower s).
Proof.
  induction s as [|c s IH]; [reflexivity|].
  cbn [PyStr.rstrip PyStr.lower]. rewrite <- IH, is_space_lower_char.
  destruct (PyStr.rstrip s); cbn [PyStr.lower]; [|reflexivity].
  now destruct (PyStr.is_space c).
Qed.

Lemma lower_strip s : PyStr.lower (PyStr.strip s) = PyStr.strip (PyStr.lower s).
Proof. unfold PyStr.strip. now rewrite lower_rstrip, lower_lstrip. Qed.

Lemma lower_char_idem c :
  PyStr.lower_char (PyStr.lower_char c) = PyStr.lower_char c.
Proof. by_all_chars c. Qed.

Lemma lower_idem s : PyStr.lower (PyStr.lower s) = PyStr.lower s.
Proof.
  induction s as [|c s IH]; [reflexivity|].
  cbn [PyStr.lower]. now rewrite lower_char_idem, IH.
Qed.

Lemma lower_upper_ascii c :
  PyStr.lower_char (PyStr.upper_ascii c) = PyStr.lower_char c.
Proof. by_all_chars c. Qed.

Lemma lower_capitalize s : PyStr.lower (PyStr.capitalize s) = PyStr.lower s.
Proof.
  destruct s as [|c s]; [reflexivity|].
  cbn [PyStr.capitalize PyStr.lower]. now rewrite lower_upper_ascii, lower_idem.
Qed.

Lemma type_key_recase g c :
  (forall s, PyStr.lower (g s) = PyStr.lower s) ->
  type_key (recase_cell g c) = type_key c.
Proof.
  intros Hg. destruct c; try reflexivity.
  unfold type_key. cbn [recase_cell py_str].
  now rewrite !lower_strip, Hg.
Qed.

(** ** Recasing a table *)

Lemma get_map cols name h r :
  h CNaN = CNaN -> get cols name (map h r) = h (get cols name r).
Proof.
  intros Hh. unfold get. destruct (index_of name cols) as [i|]; [|easy].
  rewrite <- Hh at 1. apply map_nth.
Qed.

Lemma set_cell_set_cell f h i : forall r,
  set_cell i f (set_cell i h r) = set_cell i (fun c => f (h c)) r.
Proof.
  induction i as [|i IH]; intros [|c r]; simpl; try reflexivity;
    now rewrite IH.
Qed.

Lemma set_cell_ext f h i : (forall c, f c = h c) -> forall r,
  set_cell i f r = set_cell i h r.
Proof.
  intros Hfh. induction i as [|i IH]; intros [|c r]; simpl;
    rewrite ?Hfh, ?IH; reflexivity.
Qed.

Lemma str_lower_recase g c :
  (forall s, PyStr.lower (g s) = PyStr.lower s) ->
  str_lower_cell (recase_cell g c) = str_lower_cell c.
Proof. intros Hg. destruct c; try reflexivity. simpl. now rewrite Hg. Qed.

Lemma df_empty_recase_matrix g m :
  df_empty (recase_matrix g m) = df_empty m.
Proof. unfold df_empty. simpl. now destruct (columns m), (rows m). Qed.

Lemma df_empty_recase_catalog g c :
  df_empty (recase_catalog g c) = df_empty c.
Proof.
  unfold recase_catalog.
  destruct (index_of "type_name" (columns c)); [|reflexivity].
  unfold df_empty. simpl. now destruct (columns c), (rows c).
Qed.

Lemma columns_recase_catalog g c :
  columns (recase_catalog g c) = columns c.
Proof.
  unfold recase_catalog. now destruct (index_of "type_name" (columns c)).
Qed.

Lemma rows_where_recase_matrix g m th :
  rows_where (recase_matrix g m) "Time_horizon_score" (CInt th)
  = map (map (recase_cell g)) (rows_where m "Time_horizon_score" (CInt th)).
Proof.
  unfold rows_where. cbn [recase_matrix columns rows].
  rewrite filter_map. f_equal. apply filter_ext. intros r.
  rewrite get_map by reflexivity.
  now destruct (get (columns m) "Time_horizon_score" r).
Qed.

Lemma str_lower_column_recase g c :
  (forall s, PyStr.lower (g s) = PyStr.lower s) ->
  str_lower_column (recase_catalog g c) "type_name"
  = str_lower_column c "type_name".
Proof.
  intros Hg. unfold recase_catalog.
  destruct (index_of "type_name" (columns c)) as [i|] eqn:Hi; [|reflexivity].
  unfold str_lower_column, column. cbn [columns rows]. rewrite Hi.
  rewrite !map_map.
  assert (Hex : forall l : list (list cell),
    existsb is_str (map (fun x => get (columns c) "type_name"
                                      (set_cell i (recase_cell g) x)) l)
    = existsb is_str (map (get (columns c) "type_name") l)).
  { induction l as [|r l IH]; simpl; [reflexivity|].
    rewrite IH, (get_set_cell_same _ _ _ _ _ Hi).
    now destruct (get (columns c) "type_name" r). }
  rewrite Hex.
  destruct (existsb is_str (map (get (columns c) "type_name") (rows c)));
    [|reflexivity].
  do 2 f_equal. apply map_ext. intros r.
  rewrite set_cell_set_cell. apply set_cell_ext.
  intros x. now apply str_lower_recase.
Qed.

Lemma lookup_details_recase g c t :
  (forall s, PyStr.lower (g s) = PyStr.lower s) ->
  lookup_details (recase_catalog g c) t = lookup_details c t.
Proof.
  intros Hg. unfold lookup_details, has_column.
  rewrite columns_recase_catalog, (str_lower_column_recase g c Hg).
  reflexivity.
Qed.

Lemma column_has_str c k t :
  In k (rows c) -> get (columns c) "type_name" k = CStr t ->
  existsb is_str (column c "type_name") = true.
Proof.
  intros Hin Hk. apply existsb_exists. exists (CStr t). split; [|reflexivity].
  unfold column. rewrite <- Hk. now apply in_map.
Qed.

Lemma resolve_found f m c th rt pre r post :
  risk_matrix f = Parsed m -> portfolio_type f = Parsed c ->
  df_empty m = false -> df_empty c = false ->
  has_column m "Time_horizon_score" = true ->
  has_column m (PyStr.of_int rt) = true ->
  rows m = pre ++ r :: post ->
  Forall (fun r => horizon_matches (columns m) th r = false) pre ->
  horizon_matches (columns m) th r = true ->
  has_column c "type_name" = true ->
  existsb is_str (column c "type_name") = true ->
  resolve f th rt =
  let t := type_key (get (columns m) (PyStr.of_int rt) r) in
  match filter (type_matches (columns c) t) (rows c) with
  | [] => ([TypeHeading t; Warning (NoDetailsFor t)], Stopped)
  | k :: l =>
      ([TypeHeading t],
       Done (t, mkDF (columns c) (map (normalized (columns c)) (k :: l))))
  end.
Proof.
  intros Hm Hc Hem Hec Hth Hcol Hrows Hpre Hr Htn Hstr.
  rewrite (resolve_eq f m c th rt Hm Hc Hem Hec Hth), Hcol.
  destruct (rows_where_first m th pre r post Hrows Hpre Hr) as [rest ->].
  cbv zeta. rewrite (lookup_details_eq _ _ Htn Hstr).
  destruct (filter _ (rows c)); reflexivity.
Qed.

Lemma resolve_recase f m c th rt g g' :
  risk_matrix f = Parsed m -> portfolio_type f = Parsed c ->
  df_empty m = false -> df_empty c = false ->
  has_column m "Time_horizon_score" = true ->
  (forall s, PyStr.lower (g s) = PyStr.lower s) ->
  (forall s, PyStr.lower (g' s) = PyStr.lower s) ->
  resolve (mkFiles (question_7 f) (Parsed (recase_matrix g m))
                   (Parsed (recase_catalog g' c))) th rt
  = resolve f th rt.
Proof.
  intros Hm Hc Hem Hec Hth Hg Hg'.
  rewrite (resolve_eq f m c th rt Hm Hc Hem Hec Hth).
  rewrite (resolve_eq (mkFiles (question_7 f) (Parsed (recase_matrix g m))
                               (Parsed (recase_catalog g' c)))
             (recase_matrix g m) (recase_catalog g' c) th rt
             eq_refl eq_refl);
    [ | now rewrite df_empty_recase_matrix
      | now rewrite df_empty_recase_catalog
      | exact Hth ].
  change (has_column (recase_matrix g m) (PyStr.of_int rt))
    with (has_column m (PyStr.of_int rt)).
  destruct (has_column m (PyStr.of_int rt)); [|reflexivity].
  rewrite rows_where_recase_matrix.
  destruct (rows_where m "Time_horizon_score" (CInt th)) as [|r0 rest];
    [reflexivity|].
  cbn [map recase_matrix columns]. cbv zeta.
  rewrite get_map by reflexivity.
  rewrite (type_key_recase g _ Hg).
  now rewrite (lookup_details_recase g' c _ Hg').
Qed.

(** ** Matching the portfolio type *)

(** C9, as the code has it.  Let the matrix cell found for the two
    scores and the [type_name] [t] of a catalog row [k] be equal once both
    are lowercased and the cell is trimmed.  Then resolution succeeds with
    the lowercased name as portfolio type, and what it returns is exactly
    the catalog rows of that type, in table order, each with [type_name]
    lowercased and every other field as the catalog has it.  So [k] is
    returned; it is returned first when no earlier catalog row has its
    type, and alone - the frame holds the fields of [k] and nothing else -
    when no other catalog row has its type.  Rewriting the strings of the
    matrix cells and the catalog's [type_name]s in another casing leaves
    the whole result unchanged. *)
Theorem type_match_ignores_case
        (f : files) (m c : DataFrame) (th rt : Z)
        (pre : list (list cell)) (r : list cell) (post : list (list cell))
        (k : list cell) (t : string) :
  risk_matrix f = Parsed m -> portfolio_type f = Parsed c ->
  df_empty m = false -> df_empty c = false ->
  has_column m "Time_horizon_score" = true ->
  has_column m (PyStr.of_int rt) = true ->
  rows m = pre ++ r :: post ->
  Forall (fun r => horizon_matches (columns m) th r = false) pre ->
  horizon_matches (columns m) th r = true ->
  has_column c "type_name" = true ->
  In k (rows c) ->
  get (columns c) "type_name" k = CStr t ->
  PyStr.lower t = type_key (get (columns m) (PyStr.of_int rt) r) ->
  resolve f th rt
  = ([TypeHeading (PyStr.lower t)],
     Done (PyStr.lower t,
           mkDF (columns c)
                (map (normalized (columns c))
                     (filter (type_matches (columns c) (PyStr.lower t))
                             (rows c)))))
  /\ In k (filter (type_matches (columns c) (PyStr.lower t)) (rows c))
  /\ (forall kpre kpost,
        rows c = kpre ++ k :: kpost ->
        Forall (fun x => type_matches (columns c) (PyStr.lower t) x = false)
               kpre ->
        resolve f th rt
        = ([TypeHeading (PyStr.lower t)],
           Done (PyStr.lower t,
                 mkDF (columns c)
                      (normalized (columns c) k
                       :: map (normalized (columns c))
                              (filter (type_matches (columns c)
                                                    (PyStr.lower t))
                                      kpost))))
        /\ (Forall (fun x => type_matches (columns c) (PyStr.lower t) x
                             = false) kpost ->
            resolve f th rt
            = ([TypeHeading (PyStr.lower t)],
               Done (PyStr.lower t,
                     mkDF (columns c) [normalized (columns c) k]))))
  /\ get (columns c) "type_name" (normalized (columns c) k)
     = CStr (PyStr.lower t)
  /\ (forall name, name <> "type_name" ->
        get (columns c) name (normalized (columns c) k)
        = get (columns c) name k)
  /\ (forall g g',
        (forall s, PyStr.lower (g s) = PyStr.lower s) ->
        (forall s, PyStr.lower (g' s) = PyStr.lower s) ->
        resolve (mkFiles (question_7 f) (Parsed (recase_matrix g m))
                         (Parsed (recase_catalog g' c))) th rt
        = resolve f th rt).
Proof.
  intros Hm Hc Hem Hec Hth Hcol Hrows Hpre Hr Htn Hin Hk Heq.
  pose proof (column_has_str c k t Hin Hk) as Hstr.
  destruct (has_column_index _ _ Htn) as [i Hi].
  assert (Hmatch : type_matches (columns c) (PyStr.lower t) k = true).
  { unfold type_matches. rewrite Hk. apply String.eqb_refl. }
  assert (Hf : In k (filter (type_matches (columns c) (PyStr.lower t))
                            (rows c)))
    by (apply filter_In; now split).
  assert (Hres : resolve f th rt
                 = ([TypeHeading (PyStr.lower t)],
                    Done (PyStr.lower t,
                          mkDF (columns c)
                               (map (normalized (columns c))
                                    (filter (type_matches (columns c)
                                                          (PyStr.lower t))
                                            (rows c)))))).
  { rewrite (resolve_found f m c th rt pre r post
               Hm Hc Hem Hec Hth Hcol Hrows Hpre Hr Htn Hstr).
    cbv zeta. rewrite <- Heq.
    destruct (filter (type_matches (columns c) (PyStr.lower t)) (rows c))
      as [|k0 l]; [contradiction | reflexivity]. }
  split; [exact Hres|]. split; [exact Hf|].
  split; [|split; [|split]].
  - intros kpre kpost Hsplit Hkpre.
    assert (Hfirst : filter (type_matches (columns c) (PyStr.lower t))
                            (rows c)
                     = k :: filter (type_matches (columns c) (PyStr.lower t))
                                   kpost)
      by (rewrite Hsplit; now apply filter_first).
    split.
    + rewrite Hres, Hfirst. reflexivity.
    + intros Hkpost. rewrite Hres, Hfirst, (filter_none _ _ Hkpost).
      reflexivity.
  - unfold normalized. rewrite Hi, (get_set_cell_same _ _ _ _ _ Hi), Hk.
    reflexivity.
  - intros name Hne. unfold normalized. rewrite Hi.
    now apply get_set_cell_other with (name := "type_name").
  - intros g g' Hg Hg'.
    now apply resolve_recase with (m := m) (c := c).
Qed.

Lemma type_match_ignores_case_witness :
  resolve sample_files_unique 5 20
  = ([TypeHeading "growth"],
     Done ("growth",
           mkDF catalog_columns [normalized catalog_columns growth_row]))
  /\ get catalog_columns "type_name" (normalized catalog_columns growth_row)
     = CStr "growth"
  /\ (forall name, name <> "type_name" ->
        get catalog_columns name (normalized catalog_columns growth_row)
        = get catalog_columns name growth_row)
  /\ resolve (mkFiles (question_7 sample_files_unique)
                      (Parsed (recase_matrix PyStr.capitalize sample_matrix))
                      (Parsed (recase_catalog PyStr.capitalize
                                 (mkDF catalog_columns
                                       [income_row; growth_row; odd_row]))))
             5 20
     = resolve sample_files_unique 5 20.
Proof.
  destruct (type_match_ignores_case sample_files_unique sample_matrix
              (mkDF catalog_columns [income_row; growth_row; odd_row])
              5 20 [] [CInt 5; CStr " Growth "; CStr "Aggressive"]
              [ [CInt 5; CStr "income"; CStr "income"];
                [CInt 18; CStr "balanced"; CStr "Income"] ]
              growth_row "GROWTH"
              eq_refl eq_refl eq_refl eq_refl eq_refl eq_refl eq_refl
              (Forall_nil _) eq_refl eq_refl
              (or_intror (or_introl eq_refl)) eq_refl eq_refl)
    as [_ [_ [Hrow [Hname [Hother Hcase]]]]].
  split; [|split; [|split]].
  - apply (Hrow [income_row] [odd_row] eq_refl).
    + repeat constructor.
    + repeat constructor.
  - exact Hname.
  - exact Hother.
  - apply Hcase; apply lower_capitalize.
Defined.

(** C9 as the specification states it fails for a catalog row that is
    not the only one of its type.  The cell [" Growth "] and the
    [type_name] [growth] of the third catalog row are equal after
    lowercasing and trimming, yet resolution returns two rows, and the
    first of them, whose description and weights are shown, is the second
    catalog row: its fields are not those of the third. *)
Lemma later_row_of_type_not_returned_alone :
  In second_growth_row (rows sample_catalog)
  /\ get catalog_columns "type_name" second_growth_row = CStr "growth"
  /\ PyStr.lower "growth"
     = type_key (get (columns sample_matrix) "20"
                     [CInt 5; CStr " Growth "; CStr "Aggressive"])
  /\ resolve sample_files 5 20
     = ([TypeHeading "growth"],
        Done ("growth",
              mkDF catalog_columns
                   [normalized catalog_columns growth_row;
                    normalized catalog_columns second_growth_row]))
  /\ resolve sample_files 5 20
     <> ([TypeHeading "growth"],
         Done ("growth",
               mkDF catalog_columns
                    [normalized catalog_columns second_growth_row]))
  /\ get catalog_columns "investor_type"
         (normalized catalog_columns growth_row)
     <> get catalog_columns "investor_type" second_growth_row.
Proof.
  repeat split; try reflexivity; try discriminate.
  simpl. tauto.
Qed.

(** ** The reference sort meets the contract *)

Lemma ordered_total asc a b :
  ordered asc a b = false -> ordered asc b a = true.
Proof.
  unfold ordered. destruct asc; intros H;
    apply Z.leb_gt in H; apply Z.leb_le; lia.
Qed.

Lemma by_weight_trans asc a b c :
  by_weight asc a b -> by_weight asc b c -> by_weight asc a c.
Proof.
  unfold by_weight, ordered. destruct asc; intros H1 H2;
    apply Z.leb_le in H1; apply Z.leb_le in H2; apply Z.leb_le; lia.
Qed.

Lemma insert_by_perm asc x l : Permutation (x :: l) (insert_by asc x l).
Proof.
  induction l as [|y l IH]; simpl; [reflexivity|].
  destruct (ordered asc x y); [reflexivity|].
  rewrite perm_swap. now constructor.
Qed.

Lemma insert_by_sorted asc x l :
  Sorted (by_weight asc) l -> Sorted (by_weight asc) (insert_by asc x l).
Proof.
  induction l as [|y l IH]; simpl; intros Hs.
  - repeat constructor.
  - destruct (ordered asc x y) eqn:E.
    + constructor; [exact Hs|]. constructor. exact E.
    + inversion Hs as [|? ? Hl Hhd]; subst. constructor; [now apply IH|].
      destruct l as [|z l]; simpl.
      * constructor. now apply ordered_total.
      * destruct (ordered asc x z); constructor.
        -- now apply ordered_total.
        -- now inversion Hhd.
Qed.

Lemma insertion_sort_sorts : sorts insertion_sort.
Proof.
  intros asc l. split.
  - induction l as [|x l IH]; simpl; [reflexivity|].
    etransitivity; [|apply insert_by_perm]. now constructor.
  - induction l as [|x l IH]; simpl; [constructor|].
    now apply insert_by_sorted.
Qed.

Lemma insertion_sort_rev_sorts : sorts insertion_sort_rev.
Proof.
  intros asc l. unfold insertion_sort_rev. split.
  - etransitivity; [apply Permutation_rev|]. apply insertion_sort_sorts.
  - apply insertion_sort_sorts.
Qed.



(** ** The weight breakdown *)










Lemma int64_cast_range t : - 2 ^ 63 <= int64_cast t < 2 ^ 63.
Proof.
  unfold int64_cast.
  destruct (- 2 ^ 63 <=? t) eqn:E1; [destruct (t <? 2 ^ 63) eqn:E2|];
    cbn [andb]; lia.
Qed.









(** The negative weight is kept whatever the reader and the sort are. *)
Lemma negative_weight_kept_by_any_sort
      (to_numeric_str : string -> option number)
      (sort_values : bool -> list (string * Z) -> list (string * Z)) :
  sorts sort_values ->
  In ("Large cap equity", -5)
     (composition to_numeric_str sort_values catalog_columns odd_row).
Proof.
  intros Hsort.
  destruct (Hsort false (weights_of to_numeric_str catalog_columns odd_row))
    as [Hp _].
  eapply Permutation_in; [exact Hp|]. left. reflexivity.
Qed.

(** Permuting and ordering by weight alone does not settle the order of
    equal weights: two sorts that do both order the three 20s of
    [growth_row] differently.  The first is stable, the second is not;
    hence the assumption [stable] above. *)
Lemma equal_weights_order_not_settled :
  sorts insertion_sort /\ sorts insertion_sort_rev
  /\ composition read_decimal insertion_sort catalog_columns growth_row
     = [("Large cap equity", 40); ("Small cap equity", 20);
        ("International equity", 20); ("Fixed income", 20);
        ("Cash investments", 0)]
  /\ composition read_decimal insertion_sort_rev catalog_columns growth_row
     = [("Large cap equity", 40); ("Fixed income", 20);
        ("International equity", 20); ("Small cap equity", 20);
        ("Cash investments", 0)].
Proof.
  repeat split;
    try apply insertion_sort_sorts; try apply insertion_sort_rev_sorts.
Qed.

(** ** What is shown of the catalog rows *)

Lemma present_eq
      (to_numeric_str : string -> option number)
      (sort_values : bool -> list (string * Z) -> list (string * Z))
      (ptype : string) (cols : list string)
      (r : list cell) (rest : list (list cell)) :
  sorts sort_values ->
  has_column (mkDF cols (r :: rest)) "investor_type" = true ->
  forallb (has_column (mkDF cols (r :: rest))) returns_cols = true ->
  forallb (has_column (mkDF cols (r :: rest))) comp_cols = true ->
  castable to_numeric_str (weight_cells cols r) = true ->
  present to_numeric_str sort_values ptype (mkDF cols (r :: rest))
  = ([Profile ptype (py_str (get cols "investor_type" r));
      ReturnsTable (map (fun x => map (fun c => get cols c x) returns_cols)
                        (r :: rest));
      Suggestion ptype;
      BarChart (sort_values true
                  (groupby_sum
                     (composition to_numeric_str sort_values cols r)));
      Prose "Definitions"], Done tt).
Proof.
  intros Hsort Hinv Hret Hcomp Hcast. unfold present. cbn [rows columns].
  rewrite Hinv, Hret, Hcomp.
  change (map (fun c => get cols c r) comp_cols) with (weight_cells cols r).
  rewrite Hcast. unfold bar_chart_display.
  destruct (Hsort false (weights_of to_numeric_str cols r)) as [Hp _].
  apply Permutation_length in Hp.
  change (sort_values false (weights_of to_numeric_str cols r))
    with (composition to_numeric_str sort_values cols r) in Hp.
  destruct (composition to_numeric_str sort_values cols r) as [|x l] eqn:E;
    [discriminate Hp|].
  reflexivity.
Qed.

(** The chart data are in ascending order of weight: [bar_chart_display]
    sorts again what it is given. *)
Lemma chart_data_ascending
      (sort_values : bool -> list (string * Z) -> list (string * Z))
      (data : list (string * Z)) :
  sorts sort_values ->
  Sorted (by_weight true) (sort_values true (groupby_sum data)).
Proof. intros Hsort. apply Hsort. Qed.

(** With several matrix rows of the same time horizon score, the type is
    read from the first one: the rows after it play no part. *)
Lemma first_matrix_row_wins f f' m m' c th rt pre r post post' :
  risk_matrix f = Parsed m -> portfolio_type f = Parsed c ->
  risk_matrix f' = Parsed m' -> portfolio_type f' = Parsed c ->
  columns m' = columns m ->
  rows m = pre ++ r :: post -> rows m' = pre ++ r :: post' ->
  has_column m "Time_horizon_score" = true ->
  df_empty m = false -> df_empty c = false ->
  Forall (fun r => horizon_matches (columns m) th r = false) pre ->
  horizon_matches (columns m) th r = true ->
  lookup_type f' th rt = lookup_type f th rt.
Proof.
  intros Hm Hc Hm' Hc' Hcols Hrows Hrows' Hth Hem Hec Hpre Hr.
  assert (Hem' : df_empty m' = false).
  { unfold df_empty in *. rewrite Hcols, Hrows'.
    destruct (columns m); [discriminate|]. now destruct pre. }
  assert (Hth' : has_column m' "Time_horizon_score" = true)
    by (unfold has_column in *; now rewrite Hcols).
  rewrite (lookup_type_eq f m c th rt Hm Hc Hem Hec Hth).
  rewrite (lookup_type_eq f' m' c th rt Hm' Hc' Hem' Hec Hth').
  unfold has_column. rewrite Hcols.
  destruct (existsb (String.eqb (PyStr.of_int rt)) (columns m));
    [|reflexivity].
  unfold rows_where. rewrite Hcols, Hrows, Hrows'.
  now rewrite !(filter_first _ pre r _ Hpre Hr).
Qed.

(** Of the catalog rows of a type, the first one gives the description
    and the weights, while the returns table lists the statistics of all
    of them. *)
Lemma returns_table_lists_every_match
      (to_numeric_str : string -> option number)
      (sort_values : bool -> list (string * Z) -> list (string * Z))
      (ptype : string) (cols : list string)
      (r : list cell) (rest : list (list cell)) :
  sorts sort_values ->
  has_column (mkDF cols (r :: rest)) "investor_type" = true ->
  forallb (has_column (mkDF cols (r :: rest))) returns_cols = true ->
  forallb (has_column (mkDF cols (r :: rest))) comp_cols = true ->
  castable to_numeric_str (weight_cells cols r) = true ->
  In (ReturnsTable (map (fun c => get cols c r) returns_cols
                    :: map (fun x => map (fun c => get cols c x) returns_cols)
                           rest))
     (trace (present to_numeric_str sort_values ptype
                     (mkDF cols (r :: rest))))
  /\ In (Profile ptype (py_str (get cols "investor_type" r)))
        (trace (present to_numeric_str sort_values ptype
                        (mkDF cols (r :: rest))))
  /\ In (BarChart (sort_values true
                     (groupby_sum
                        (composition to_numeric_str sort_values cols r))))
        (trace (present to_numeric_str sort_values ptype
                        (mkDF cols (r :: rest)))).
Proof.
  intros Hsort Hinv Hret Hcomp Hcast.
  rewrite (present_eq _ _ _ _ _ _ Hsort Hinv Hret Hcomp Hcast).
  simpl. tauto.
Qed.

(** C10 at a catalog with two rows of type growth.  The description and
    the chart are those of the first row, but the returns table holds one
    column of statistics for each of the two rows; without the second
    row the table holds one column only.  So a later duplicate does
    change what is shown. *)
Theorem later_duplicate_shows_in_returns_table :
  show_portfolio read_decimal insertion_sort sample_files 5 20
  = ([TypeHeading "growth"; Profile "growth" "long-term growth";
      ReturnsTable [ [CFloat (15 # 2) "7.5"; CInt 30; CInt (-20)];
                     [CFloat (17 # 2) "8.5"; CInt 31; CInt (-21)] ];
      Suggestion "growth";
      BarChart [("Cash investments", 0); ("Fixed income", 20);
                ("International equity", 20); ("Small cap equity", 20);
                ("Large cap equity", 40)];
      Prose "Definitions"], Done tt)
  /\ show_portfolio read_decimal insertion_sort sample_files_unique 5 20
     = ([TypeHeading "growth"; Profile "growth" "long-term growth";
         ReturnsTable [ [CFloat (15 # 2) "7.5"; CInt 30; CInt (-20)] ];
         Suggestion "growth";
         BarChart [("Cash investments", 0); ("Fixed income", 20);
                   ("International equity", 20); ("Small cap equity", 20);
                   ("Large cap equity", 40)];
         Prose "Definitions"], Done tt).
Proof. split; reflexivity. Qed.

(* ------------------------------------------------------------------ *)
(** * Further properties *)

(** ** The lookup on any files *)

Lemma load_csv_eq path c :
  load_csv path c = (load_notice path c, Done (frame_of c)).
Proof. destruct c; reflexivity. Qed.

Lemma bind_eq {A B} (m : ui A) (k : A -> ui B) t a :
  m = (t, Done a) -> bind m k = (t ++ trace (k a), result (k a)).
Proof. intros ->. simpl. now destruct (k a). Qed.

Lemma df_empty_nonparsed c :
  df_empty (frame_of c) = false -> exists df, c = Parsed df.
Proof. destruct c; try discriminate. intros _. now eexists. Qed.

Lemma lookup_type_any f th rt :
  lookup_type f th rt =
  let m := frame_of (risk_matrix f) in
  let c := frame_of (portfolio_type f) in
  if df_empty m || df_empty c then (load_notices f, Stopped)
  else if negb (has_column m "Time_horizon_score") then
    ([Error (MissingColumn RISK_MATRIX_CSV "Time_horizon_score")], Stopped)
  else if negb (has_column m (PyStr.of_int rt)) then
    ([Warning (NoColumnFor (PyStr.of_int rt))], Stopped)
  else
    match rows_where m "Time_horizon_score" (CInt th) with
    | [] => ([Warning (NoRowFor th)], Stopped)
    | row0 :: _ =>
        ([TypeHeading (type_key (get (columns m) (PyStr.of_int rt) row0))],
         Done (type_key (get (columns m) (PyStr.of_int rt) row0), c))
    end.
Proof.
  cbv zeta.
  destruct (df_empty (frame_of (risk_matrix f))
            || df_empty (frame_of (portfolio_type f))) eqn:E.
  - unfold lookup_type.
    rewrite (bind_eq _ _ _ _ (load_csv_eq _ _)). cbv beta.
    rewrite (bind_eq _ _ _ _ (load_csv_eq _ _)). cbv beta.
    rewrite E. unfold load_notices, trace, result, stop. simpl.
    now rewrite app_nil_r.
  - apply orb_false_elim in E. destruct E as [Em Ec].
    destruct (df_empty_nonparsed _ Em) as [m Hm].
    destruct (df_empty_nonparsed _ Ec) as [c Hc].
    rewrite Hm, Hc in *. cbn [frame_of] in *.
    destruct (has_column m "Time_horizon_score") eqn:Hth; cbn [negb].
    + rewrite (lookup_type_eq f m c th rt Hm Hc Em Ec Hth).
      destruct (has_column m (PyStr.of_int rt)); reflexivity.
    + unfold lookup_type. rewrite Hm, Hc.
      change (load_csv RISK_MATRIX_CSV (Parsed m)) with (ret m).
      change (load_csv PORTFOLIO_TYPE_CSV (Parsed c)) with (ret c).
      rewrite !bind_ret. rewrite Em, Ec, Hth. reflexivity.
Qed.

Lemma lookup_details_any c t :
  lookup_details c t =
  if negb (has_column c "type_name") then
    ([Error (MissingColumn PORTFOLIO_TYPE_CSV "type_name")], Stopped)
  else if existsb is_str (column c "type_name") then
    match filter (type_matches (columns c) t) (rows c) with
    | [] => ([Warning (NoDetailsFor t)], Stopped)
    | r :: l =>
        ([], Done (mkDF (columns c) (map (normalized (columns c)) (r :: l))))
    end
  else ([], Raised AttributeError).
Proof.
  destruct (has_column c "type_name") eqn:Hcol; cbn [negb].
  - destruct (existsb is_str (column c "type_name")) eqn:Hstr.
    + now apply lookup_details_eq.
    + unfold lookup_details, str_lower_column. now rewrite Hcol, Hstr.
  - unfold lookup_details. now rewrite Hcol.
Qed.

Lemma resolve_any f th rt :
  resolve f th rt =
  match lookup_type f th rt with
  | (t, Done (ptype, c)) =>
      (t ++ trace (lookup_details c ptype),
       match result (lookup_details c ptype) with
       | Done filtered => Done (ptype, filtered)
       | Stopped => Stopped
       | Raised e => Raised e
       end)
  | (t, Stopped) => (t, Stopped)
  | (t, Raised e) => (t, Raised e)
  end.
Proof.
  unfold resolve.
  destruct (lookup_type f th rt) as [t [[ptype c]| |e]]; try reflexivity.
  cbn [bind].
  destruct (lookup_details c ptype) as [t' [d| |e]]; simpl;
    rewrite ?app_nil_r; reflexivity.
Qed.

(** Whenever resolution returns, it returns at least one row. *)
Lemma resolve_done_rows f th rt t ptype filtered :
  resolve f th rt = (t, Done (ptype, filtered)) -> rows filtered <> [].
Proof.
  rewrite resolve_any.
  destruct (lookup_type f th rt) as [t0 [[p c]| |e]]; try discriminate.
  rewrite lookup_details_any.
  destruct (negb (has_column c "type_name")); [discriminate|].
  destruct (existsb is_str (column c "type_name")); [|discriminate].
  destruct (filter (type_matches (columns c) p) (rows c)); [discriminate|].
  cbn [trace result fst snd]. intros H. inversion H; subst. discriminate.
Qed.

Section AnyPandas.

Variable to_numeric_str : string -> option number.
Variable sort_values : bool -> list (string * Z) -> list (string * Z).

Lemma bar_chart_display_done data :
  result (bar_chart_display sort_values data) = Done tt.
Proof. now destruct data. Qed.

Lemma present_result ptype filtered :
  rows filtered <> [] ->
  result (present to_numeric_str sort_values ptype filtered)
  = if cast_fails to_numeric_str filtered then Raised ValueError
    else Done tt.
Proof.
  intros Hne. unfold present, cast_fails.
  destruct (rows filtered) as [|row0 rest]; [contradiction|].
  change (map (fun c => get (columns filtered) c row0) comp_cols)
    with (weight_cells (columns filtered) row0).
  rewrite !result_bind.
  destruct (has_column filtered "investor_type"); cbn [result snd emit ret].
  all: rewrite ?result_bind;
    destruct (forallb (has_column filtered) returns_cols);
    cbn [result snd emit ret];
    rewrite ?result_bind;
    destruct (forallb (has_column filtered) comp_cols);
    cbn [result snd emit ret andb]; try reflexivity;
    destruct (castable to_numeric_str
                       (weight_cells (columns filtered) row0));
    cbn [negb]; try reflexivity;
    rewrite !result_bind; cbn [result snd emit];
    rewrite bar_chart_display_done; reflexivity.
Qed.

Lemma show_portfolio_result f th rt :
  result (show_portfolio to_numeric_str sort_values f th rt) =
  match result (resolve f th rt) with
  | Done (_, filtered) =>
      if cast_fails to_numeric_str filtered then Raised ValueError
      else Done tt
  | Stopped => Stopped
  | Raised e => Raised e
  end.
Proof.
  unfold show_portfolio. rewrite result_bind.
  destruct (resolve f th rt) as [t [[ptype filtered]| |e]] eqn:E;
    cbn [result snd]; try reflexivity.
  apply present_result. exact (resolve_done_rows _ _ _ _ _ _ E).
Qed.

End AnyPandas.

(** ** Tables that are missing or malformed *)

(** X1. When the matrix or the catalog is absent, unreadable, or parsed
    with no row or no column, [show_portfolio] stops before any lookup.
    All it shows are the load errors of the files that did not parse: a
    file that parses to an empty table stops the evaluation silently. *)
Theorem unavailable_table_stops
        (to_numeric_str : string -> option number)
        (sort_values : bool -> list (string * Z) -> list (string * Z))
        (f : files) (th rt : Z) :
  df_empty (frame_of (risk_matrix f)) = true
  \/ df_empty (frame_of (portfolio_type f)) = true ->
  show_portfolio to_numeric_str sort_values f th rt
  = (load_notices f, Stopped)
  /\ (forall m c, risk_matrix f = Parsed m -> portfolio_type f = Parsed c ->
                  load_notices f = []).
Proof.
  intros H. split.
  - apply show_portfolio_halts. rewrite resolve_any, lookup_type_any.
    cbv zeta.
    assert (E : df_empty (frame_of (risk_matrix f))
                || df_empty (frame_of (portfolio_type f)) = true).
    { apply orb_true_iff. exact H. }
    now rewrite E.
  - intros m c Hm Hc. unfold load_notices. now rewrite Hm, Hc.
Qed.

Lemma unavailable_table_stops_witness :
  show_portfolio read_decimal insertion_sort
    (mkFiles Absent (Parsed (mkDF ["Time_horizon_score"; "20"] []))
             (Parsed sample_catalog)) 5 20
  = ([], Stopped)
  /\ show_portfolio read_decimal insertion_sort
       (mkFiles Absent (Parsed sample_matrix) Unreadable) 5 20
     = ([Error (CouldNotRead "Portfolio_type.csv")], Stopped).
Proof.
  split.
  - apply (unavailable_table_stops read_decimal insertion_sort
             (mkFiles Absent (Parsed (mkDF ["Time_horizon_score"; "20"] []))
                      (Parsed sample_catalog)) 5 20).
    left. reflexivity.
  - apply (unavailable_table_stops read_decimal insertion_sort
             (mkFiles Absent (Parsed sample_matrix) Unreadable) 5 20).
    right. reflexivity.
Defined.

(** X2. When both tables are loaded and hold at least one row, a matrix
    without the [Time_horizon_score] column is reported as an error
    before anything is looked up: whatever the scores, and whether or not
    the risk tolerance column exists, the error is all that is shown. *)
Theorem missing_score_column_is_an_error
        (to_numeric_str : string -> option number)
        (sort_values : bool -> list (string * Z) -> list (string * Z))
        (f : files) (m c : DataFrame) (th rt : Z) :
  risk_matrix f = Parsed m -> portfolio_type f = Parsed c ->
  df_empty m = false -> df_empty c = false ->
  has_column m "Time_horizon_score" = false ->
  show_portfolio to_numeric_str sort_values f th rt
  = ([Error (MissingColumn "Risk_profile_matrix.csv" "Time_horizon_score")],
     Stopped).
Proof.
  intros Hm Hc Hem Hec Hth. apply show_portfolio_halts.
  rewrite resolve_any, lookup_type_any. cbv zeta.
  rewrite Hm, Hc. cbn [frame_of]. now rewrite Hem, Hec, Hth.
Qed.

Lemma missing_score_column_is_an_error_witness :
  show_portfolio read_decimal insertion_sort
    (mkFiles Absent (Parsed (mkDF ["horizon"; "20"] [[CInt 5; CStr "growth"]]))
             (Parsed sample_catalog)) 5 41
  = ([Error (MissingColumn "Risk_profile_matrix.csv" "Time_horizon_score")],
     Stopped).
Proof.
  apply (missing_score_column_is_an_error read_decimal insertion_sort _
           (mkDF ["horizon"; "20"] [[CInt 5; CStr "growth"]]) sample_catalog);
    reflexivity.
Defined.

(** X3. When both tables are loaded and hold at least one row, the
    [type_name] column of the catalog is looked at only after the
    portfolio type has been found in the matrix and its heading shown.  A
    catalog without the [type_name] column then ends the evaluation with
    an error, and one whose [type_name] column holds no text at all makes
    the [.str] accessor raise [AttributeError]; in neither case is a
    warning or any detail of a portfolio shown. *)
Theorem malformed_catalog_after_heading
        (to_numeric_str : string -> option number)
        (sort_values : bool -> list (string * Z) -> list (string * Z))
        (f : files) (m c : DataFrame) (th rt : Z)
        (pre : list (list cell)) (r : list cell) (post : list (list cell)) :
  risk_matrix f = Parsed m -> portfolio_type f = Parsed c ->
  df_empty m = false -> df_empty c = false ->
  has_column m "Time_horizon_score" = true ->
  has_column m (PyStr.of_int rt) = true ->
  rows m = pre ++ r :: post ->
  Forall (fun r => horizon_matches (columns m) th r = false) pre ->
  horizon_matches (columns m) th r = true ->
  (has_column c "type_name" = false ->
   show_portfolio to_numeric_str sort_values f th rt
   = ([TypeHeading (type_key (get (columns m) (PyStr.of_int rt) r));
       Error (MissingColumn "Portfolio_type.csv" "type_name")], Stopped))
  /\ (has_column c "type_name" = true ->
      existsb is_str (column c "type_name") = false ->
      show_portfolio to_numeric_str sort_values f th rt
      = ([TypeHeading (type_key (get (columns m) (PyStr.of_int rt) r))],
         Raised AttributeError)).
Proof.
  intros Hm Hc Hem Hec Hth Hcol Hrows Hpre Hr.
  assert (Hlook : lookup_type f th rt
    = ([TypeHeading (type_key (get (columns m) (PyStr.of_int rt) r))],
       Done (type_key (get (columns m) (PyStr.of_int rt) r), c))).
  { rewrite (lookup_type_eq f m c th rt Hm Hc Hem Hec Hth), Hcol.
    now destruct (rows_where_first m th pre r post Hrows Hpre Hr)
      as [rest ->]. }
  split.
  - intros Htn. apply show_portfolio_halts.
    rewrite resolve_any, Hlook, lookup_details_any, Htn. reflexivity.
  - intros Htn Hstr. unfold show_portfolio.
    rewrite resolve_any, Hlook, lookup_details_any, Htn, Hstr. reflexivity.
Qed.

Lemma malformed_catalog_after_heading_witness :
  show_portfolio read_decimal insertion_sort
    (mkFiles Absent (Parsed sample_matrix)
             (Parsed (mkDF ["name"] [[CStr "growth"]]))) 5 20
  = ([TypeHeading "growth";
      Error (MissingColumn "Portfolio_type.csv" "type_name")], Stopped)
  /\ show_portfolio read_decimal insertion_sort
       (mkFiles Absent (Parsed sample_matrix) (Parsed numbered_catalog)) 5 20
     = ([TypeHeading "growth"], Raised AttributeError).
Proof.
  split.
  - apply (proj1 (malformed_catalog_after_heading read_decimal insertion_sort
             (mkFiles Absent (Parsed sample_matrix)
                      (Parsed (mkDF ["name"] [[CStr "growth"]])))
             sample_matrix (mkDF ["name"] [[CStr "growth"]]) 5 20
             [] [CInt 5; CStr " Growth "; CStr "Aggressive"]
             [ [CInt 5; CStr "income"; CStr "income"];
               [CInt 18; CStr "balanced"; CStr "Income"] ]
             eq_refl eq_refl eq_refl eq_refl eq_refl eq_refl eq_refl
             (Forall_nil _) eq_refl)).
    reflexivity.
  - apply (proj2 (malformed_catalog_after_heading read_decimal insertion_sort
             (mkFiles Absent (Parsed sample_matrix) (Parsed numbered_catalog))
             sample_matrix numbered_catalog 5 20
             [] [CInt 5; CStr " Growth "; CStr "Aggressive"]
             [ [CInt 5; CStr "income"; CStr "income"];
               [CInt 18; CStr "balanced"; CStr "Income"] ]
             eq_refl eq_refl eq_refl eq_refl eq_refl eq_refl eq_refl
             (Forall_nil _) eq_refl)); reflexivity.
Defined.

(** ** The script as a whole *)

Lemma plan_points_any f choice :
  plan_points f choice =
  if plan_table_usable (frame_of (question_7 f)) then
    ([Prose "question 7";
      Radio "q7" (column (frame_of (question_7 f)) "Plan");
      Table (drop_last_column (frame_of (question_7 f)))],
     match rows_where (frame_of (question_7 f)) "Plan" choice with
     | [] => Done 0
     | r :: _ =>
         match PyInt.of_cell
                 (get (columns (frame_of (question_7 f))) "Points" r) with
         | inr z => Done z
         | inl e => Raised e
         end
     end)
  else
    (load_notice QUESTION_7_CSV (question_7 f) ++ [Info PlanTableUnavailable],
     Done 0).
Proof.
  unfold plan_points.
  rewrite (bind_eq _ _ _ _ (load_csv_eq _ _)). cbv beta.
  unfold plan_table_usable.
  destruct (negb (df_empty (frame_of (question_7 f)))
            && has_column (frame_of (question_7 f)) "Plan"
            && has_column (frame_of (question_7 f)) "Points") eqn:E.
  - assert (Hp : load_notice QUESTION_7_CSV (question_7 f) = []).
    { destruct (question_7 f); try reflexivity; discriminate E. }
    rewrite Hp. cbn [app].
    destruct (rows_where (frame_of (question_7 f)) "Plan" choice) as [|r ?];
      [reflexivity|].
    cbn [map]. now destruct (PyInt.of_cell _).
  - reflexivity.
Qed.

Lemma render_risk_tolerance_any f a :
  render_risk_tolerance f a =
  match plan_points f (a7 a) with
  | (t, Done p) =>
      (risk_questions ++ t
       ++ [ScoreLine "Risk tolerance score" (Z.min (raw_risk_sum a p) 40)],
       Done (Z.min (raw_risk_sum a p) 40, risk_scores a))
  | (t, Stopped) => (risk_questions ++ t, Stopped)
  | (t, Raised e) => (risk_questions ++ t, Raised e)
  end.
Proof.
  unfold render_risk_tolerance.
  destruct (plan_points f (a7 a)) as [t [p| |e]]; reflexivity.
Qed.

Section Script.

Variable to_numeric_str : string -> option number.
Variable sort_values : bool -> list (string * Z) -> list (string * Z).

Lemma main_any f a :
  main to_numeric_str sort_values f a =
  if time_horizon_score a <? 3 then
    (introduction ++ trace (render_time_horizon a) ++ [Info ShortHorizon],
     Done tt)
  else
    match render_risk_tolerance f a with
    | (t, Done (rt, _)) =>
        (introduction ++ trace (render_time_horizon a) ++ t
         ++ trace (show_portfolio to_numeric_str sort_values f
                                  (time_horizon_score a) rt),
         result (show_portfolio to_numeric_str sort_values f
                                (time_horizon_score a) rt))
    | (t, Stopped) =>
        (introduction ++ trace (render_time_horizon a) ++ t, Stopped)
    | (t, Raised e) =>
        (introduction ++ trace (render_time_horizon a) ++ t, Raised e)
    end.
Proof.
  unfold main. rewrite render_time_horizon_eq.
  cbv beta iota delta [bind emit ret app introduction trace fst].
  fold (time_horizon_score a).
  destruct (time_horizon_score a <? 3); [reflexivity|].
  destruct (render_risk_tolerance f a) as [t [[rt sc]| |e]]; try reflexivity.
  unfold result.
  now destruct (show_portfolio to_numeric_str sort_values f
                               (time_horizon_score a) rt).
Qed.

End Script.

Lemma of_cell_error c e :
  PyInt.of_cell c = inl e ->
  (e = OverflowError /\ exists negative, c = CInf negative)
  \/ (e = ValueError /\ not_a_number c = true).
Proof.
  destruct c as [z|q r|b|s0|]; simpl; try discriminate.
  - intros [= <-]. left. split; [reflexivity|]. now exists b.
  - destruct (PyInt.of_str s0); [discriminate|]. intros [= <-]. now right.
  - intros [= <-]. now right.
Qed.

Lemma plan_points_raised f choice e :
  result (plan_points f choice) = Raised e ->
  e = ValueError \/ e = OverflowError.
Proof.
  rewrite plan_points_result. cbv zeta.
  destruct (plan_table_usable (frame_of (question_7 f))); [|discriminate].
  destruct (rows_where (frame_of (question_7 f)) "Plan" choice) as [|r ?];
    [discriminate|].
  destruct (PyInt.of_cell _) eqn:E; [|discriminate].
  intros [= <-]. apply of_cell_error in E. tauto.
Qed.

Lemma lookup_type_not_raised f th rt e :
  result (lookup_type f th rt) <> Raised e.
Proof.
  rewrite lookup_type_any. cbv zeta.
  destruct (df_empty _ || df_empty _); [discriminate|].
  destruct (negb (has_column _ "Time_horizon_score")); [discriminate|].
  destruct (negb (has_column _ (PyStr.of_int rt))); [discriminate|].
  destruct (rows_where _ _ _); discriminate.
Qed.

Lemma resolve_raised f th rt e :
  result (resolve f th rt) = Raised e -> e = AttributeError.
Proof.
  rewrite resolve_any.
  pose proof (lookup_type_not_raised f th rt) as Hnr.
  destruct (lookup_type f th rt) as [t [[p c]| |e0]]; cbn [result snd] in *;
    try discriminate.
  - rewrite lookup_details_any.
    destruct (negb (has_column c "type_name")); [discriminate|].
    destruct (existsb is_str (column c "type_name")).
    + destruct (filter _ (rows c)); discriminate.
    + now intros [= <-].
  - now destruct (Hnr e0).
Qed.

(** X4. [main] can raise in three places only, all past the
    short-horizon test: at line 152, [ValueError] or [OverflowError] when
    [int] cannot read the [Points] of the selected plan; at line 210,
    [AttributeError] when the catalog's [type_name] column holds no text;
    at line 256, [ValueError] when the weight columns exist and a weight
    of the first catalog row of the type is infinite.  No [IndexError]
    ever arises from the [.iloc[0]] accesses.  The [__main__] block turns
    the exception into one "Unexpected error" message after what was
    shown so far. *)
Theorem main_raises_in_three_places
        (to_numeric_str : string -> option number)
        (sort_values : bool -> list (string * Z) -> list (string * Z))
        (f : files) (a : answers) (e : exn) :
  result (main to_numeric_str sort_values f a) = Raised e ->
  3 <= time_horizon_score a
  /\ (((e = ValueError \/ e = OverflowError)
       /\ result (plan_points f (a7 a)) = Raised e)
      \/ (e = AttributeError
          /\ exists p,
              result (plan_points f (a7 a)) = Done p
              /\ result (resolve f (time_horizon_score a)
                                 (Z.min (raw_risk_sum a p) 40))
                 = Raised AttributeError)
      \/ (e = ValueError
          /\ exists p ptype filtered,
              result (plan_points f (a7 a)) = Done p
              /\ result (resolve f (time_horizon_score a)
                                 (Z.min (raw_risk_sum a p) 40))
                 = Done (ptype, filtered)
              /\ cast_fails to_numeric_str filtered = true))
  /\ script to_numeric_str sort_values f a
     = (trace (main to_numeric_str sort_values f a)
        ++ [Error (Unexpected e)], Done tt).
Proof.
  intros Hmain.
  assert (Hscript : script to_numeric_str sort_values f a
    = (trace (main to_numeric_str sort_values f a)
       ++ [Error (Unexpected e)], Done tt)).
  { unfold script.
    destruct (main to_numeric_str sort_values f a) as [t o].
    cbn [result snd] in Hmain. now rewrite Hmain. }
  rewrite main_any in Hmain.
  destruct (time_horizon_score a <? 3) eqn:Hth; [discriminate|].
  apply Z.ltb_ge in Hth.
  split; [exact Hth|]. split; [|exact Hscript].
  rewrite render_risk_tolerance_any in Hmain.
  destruct (plan_points f (a7 a)) as [t [p| |e0]] eqn:Hp;
    cbn [result snd] in *; try discriminate.
  - right. rewrite show_portfolio_result in Hmain.
    destruct (result (resolve f (time_horizon_score a)
                              (Z.min (raw_risk_sum a p) 40)))
      as [[ptype filtered]| |e1] eqn:Hres; try discriminate.
    + right.
      destruct (cast_fails to_numeric_str filtered) eqn:Hcast;
        [|discriminate].
      injection Hmain as <-. split; [reflexivity|].
      exists p, ptype, filtered. now repeat split.
    + left. injection Hmain as <-.
      pose proof (resolve_raised _ _ _ _ Hres) as ->.
      split; [reflexivity|]. exists p. now split.
  - left. injection Hmain as <-. split; [|reflexivity].
    apply (plan_points_raised f (a7 a)). now rewrite Hp.
Qed.

Lemma main_raises_in_three_places_witness :
  3 <= time_horizon_score bold_answers
  /\ script read_decimal insertion_sort unbounded_files bold_answers
     = (trace (main read_decimal insertion_sort unbounded_files bold_answers)
        ++ [Error (Unexpected ValueError)], Done tt).
Proof.
  destruct (main_raises_in_three_places read_decimal insertion_sort
              unbounded_files bold_answers ValueError eq_refl)
    as [Hth [_ Hscript]].
  split; [exact Hth | exact Hscript].
Defined.

(** ** Scores of valid answers *)

(** Splits a hypothesis [In label (keys q)] into one case per label. *)
Ltac label_cases H :=
  simpl in H;
  repeat (destruct H as [H|H]; [symmetry in H; subst|]);
  try contradiction.

(** X6. For labels taken from the tables of questions 1 and 2 the time
    horizon score lies between 1 and 18, and it is below 3 - so [main]
    takes the short-horizon branch - exactly when question 1 is answered
    "Less than 3 years" and question 2 "Less than 2 years" or "2-5
    years".  In particular a score of 0 never comes from the radios. *)
Theorem short_horizon_answers
        (to_numeric_str : string -> option number)
        (sort_values : bool -> list (string * Z) -> list (string * Z))
        (f : files) (a : answers) :
  In (a1 a) (keys q1) -> In (a2 a) (keys q2) ->
  1 <= time_horizon_score a <= 18
  /\ (time_horizon_score a < 3 <->
      a1 a = "Less than 3 years"
      /\ (a2 a = "Less than 2 years" \/ a2 a = "2–5 years"))
  /\ (time_horizon_score a < 3 ->
      main to_numeric_str sort_values f a
      = (introduction ++ trace (render_time_horizon a) ++ [Info ShortHorizon],
         Done tt)).
Proof.
  intros H1 H2. split; [|split].
  - destruct a as [x1 x2 x3 x4 x5 x6 x7]. unfold time_horizon_score.
    cbn [a1 a2] in *. label_cases H1; label_cases H2; vm_compute;
      split; discriminate.
  - destruct a as [x1 x2 x3 x4 x5 x6 x7]. unfold time_horizon_score.
    cbn [a1 a2] in *. label_cases H1; label_cases H2;
      (split;
       [ intros Hlt; try (exfalso; vm_compute in Hlt; discriminate Hlt);
         (split; [reflexivity | (left; reflexivity) || (right; reflexivity)])
       | intros [Ha [Hb|Hb]]; try discriminate Ha; try discriminate Hb;
         reflexivity ]).
  - intros Hlt. rewrite main_any. apply Z.ltb_lt in Hlt. now rewrite Hlt.
Qed.

Lemma short_horizon_answers_witness :
  1 <= time_horizon_score short_answers <= 18
  /\ (time_horizon_score short_answers < 3 <->
      a1 short_answers = "Less than 3 years"
      /\ (a2 short_answers = "Less than 2 years"
          \/ a2 short_answers = "2–5 years")).
Proof.
  destruct (short_horizon_answers read_decimal insertion_sort sample_files
              short_answers) as [Hb [Hiff _]].
  - simpl. tauto.
  - simpl. tauto.
  - split; [exact Hb | exact Hiff].
Defined.

Lemma four_question_sum_bounds a :
  In (a3 a) (keys q3) -> In (a4 a) (keys q4) ->
  In (a5 a) (keys q5) -> In (a6 a) (keys q6) ->
  4 <= raw_risk_sum a 0 <= 34.
Proof.
  intros H3 H4 H5 H6. destruct a as [x1 x2 x3 x4 x5 x6 x7].
  unfold raw_risk_sum. cbn [a3 a4 a5 a6] in *.
  label_cases H3; label_cases H4; label_cases H5; label_cases H6;
    vm_compute; split; discriminate.
Qed.

Lemma raw_risk_sum_plus a p : raw_risk_sum a p = raw_risk_sum a 0 + p.
Proof. unfold raw_risk_sum. lia. Qed.

(** X7. For labels taken from the tables of questions 3 to 6 the four
    questions add up to between 4 and 34, so the cap of 40 can only be
    reached through the plan points: with [p] points, [0 <= p], the risk
    tolerance score lies between 4 and 40, and it is the plain sum as
    long as [p <= 6].  A table of negative points is not guarded
    against: the score is then the plain sum, below the four-question
    sum. *)
Theorem risk_score_bounds (f : files) (a : answers) (p : Z) :
  In (a3 a) (keys q3) -> In (a4 a) (keys q4) ->
  In (a5 a) (keys q5) -> In (a6 a) (keys q6) ->
  result (plan_points f (a7 a)) = Done p ->
  exists score,
    result (render_risk_tolerance f a) = Done (score, risk_scores a)
    /\ score <= 40
    /\ (0 <= p -> 4 <= score)
    /\ (p <= 6 -> score = raw_risk_sum a 0 + p).
Proof.
  intros H3 H4 H5 H6 Hp.
  pose proof (four_question_sum_bounds a H3 H4 H5 H6) as Hb.
  exists (Z.min (raw_risk_sum a p) 40).
  rewrite render_risk_tolerance_result, Hp, (raw_risk_sum_plus a p).
  split; [reflexivity|]. repeat split; lia.
Qed.

Lemma risk_score_bounds_witness :
  exists score,
    result (render_risk_tolerance sample_files bold_answers)
    = Done (score, risk_scores bold_answers)
    /\ score <= 40
    /\ (0 <= 11 -> 4 <= score)
    /\ (11 <= 6 -> score = raw_risk_sum bold_answers 0 + 11).
Proof.
  apply (risk_score_bounds sample_files bold_answers 11);
    solve [reflexivity | simpl; tauto].
Defined.

(** X8. When the plan table is missing, unreadable, empty, or lacks the
    [Plan] or [Points] column, the risk tolerance section shows the four
    radios, the load error if the file did not parse, and the notice
    that question 7 is unavailable; it offers no plan radio and no plan
    table, and goes on to show and return the score of the four
    questions. *)
Theorem plan_table_unavailable_notice (f : files) (a : answers) :
  plan_table_usable (frame_of (question_7 f)) = false ->
  render_risk_tolerance f a
  = (risk_questions
     ++ load_notice "question_7.csv" (question_7 f)
     ++ [Info PlanTableUnavailable;
         ScoreLine "Risk tolerance score" (Z.min (raw_risk_sum a 0) 40)],
     Done (Z.min (raw_risk_sum a 0) 40, risk_scores a)).
Proof.
  intros Hu. rewrite render_risk_tolerance_any, plan_points_any, Hu.
  now rewrite <- !app_assoc.
Qed.

Lemma plan_table_unavailable_notice_witness :
  render_risk_tolerance
    (mkFiles (Parsed (mkDF ["Plan"; "Score"] [[CStr "Plan A"; CInt 3]]))
             Absent Absent) bold_answers
  = (risk_questions
     ++ [Info PlanTableUnavailable; ScoreLine "Risk tolerance score" 34],
     Done (34, risk_scores bold_answers)).
Proof.
  apply (plan_table_unavailable_notice
           (mkFiles (Parsed (mkDF ["Plan"; "Score"] [[CStr "Plan A"; CInt 3]]))
                    Absent Absent) bold_answers).
  reflexivity.
Defined.

(** X9. When the plan table is usable and the first row of the selected
    plan holds [Points] that [int] cannot read - a missing value, text
    that is no integer, or an infinity - nothing is counted as 0: the
    evaluation ends right after the plan table with one "Unexpected
    error" message, without a risk tolerance score and without any
    portfolio lookup. *)
Theorem unreadable_points_abort
        (to_numeric_str : string -> option number)
        (sort_values : bool -> list (string * Z) -> list (string * Z))
        (f : files) (a : answers)
        (pre : list (list cell)) (r : list cell) (post : list (list cell))
        (e : exn) :
  3 <= time_horizon_score a ->
  plan_table_usable (frame_of (question_7 f)) = true ->
  rows (frame_of (question_7 f)) = pre ++ r :: post ->
  Forall (fun r => py_eq (get (columns (frame_of (question_7 f))) "Plan" r)
                         (a7 a) = false) pre ->
  py_eq (get (columns (frame_of (question_7 f))) "Plan" r) (a7 a) = true ->
  PyInt.of_cell (get (columns (frame_of (question_7 f))) "Points" r)
  = inl e ->
  script to_numeric_str sort_values f a
  = (introduction ++ trace (render_time_horizon a) ++ risk_questions
     ++ [Prose "question 7";
         Radio "q7" (column (frame_of (question_7 f)) "Plan");
         Table (drop_last_column (frame_of (question_7 f)));
         Error (Unexpected e)],
     Done tt).
Proof.
  intros Hth Hu Hrows Hpre Hr He.
  unfold script. rewrite main_any.
  apply Z.ltb_ge in Hth. rewrite Hth.
  rewrite render_risk_tolerance_any, plan_points_any, Hu.
  unfold rows_where. rewrite Hrows, (filter_first _ pre r post Hpre Hr), He.
  now rewrite <- !app_assoc.
Qed.

Lemma unreadable_points_abort_witness :
  script read_decimal insertion_sort gappy_files bold_answers
  = (introduction ++ trace (render_time_horizon bold_answers)
     ++ risk_questions
     ++ [Prose "question 7";
         Radio "q7" [CStr "Plan A"; CStr "Plan B"];
         Table (mkDF ["Plan"; "Best case"]
                     [ [CStr "Plan A"; CStr "10%"];
                       [CStr "Plan B"; CStr "25%"] ]);
         Error (Unexpected ValueError)],
     Done tt).
Proof.
  apply (unreadable_points_abort read_decimal insertion_sort
           gappy_files bold_answers
           [ [CStr "Plan A"; CStr "10%"; CInt 3] ]
           [CStr "Plan B"; CStr "25%"; CNaN] [] ValueError);
    try reflexivity.
  - vm_compute. discriminate.
  - repeat constructor.
Defined.

(** ** Normal form of the portfolio type *)

Lemma lstrip_idem s : PyStr.lstrip (PyStr.lstrip s) = PyStr.lstrip s.
Proof.
  induction s as [|c s IH]; [reflexivity|].
  cbn [PyStr.lstrip]. destruct (PyStr.is_space c) eqn:E; [exact IH|].
  cbn [PyStr.lstrip]. now rewrite E.
Qed.

Lemma rstrip_idem s : PyStr.rstrip (PyStr.rstrip s) = PyStr.rstrip s.
Proof.
  induction s as [|c s IH]; [reflexivity|].
  cbn [PyStr.rstrip]. destruct (PyStr.rstrip s) as [|d r] eqn:E.
  - destruct (PyStr.is_space c) eqn:Ec; [reflexivity|].
    cbn [PyStr.rstrip]. now rewrite Ec.
  - change (PyStr.rstrip (String c (String d r)))
      with (match PyStr.rstrip (String d r) with
            | EmptyString =>
                if PyStr.is_space c then EmptyString
                else String c EmptyString
            | String x y => String c (String x y)
            end).
    now rewrite IH.
Qed.

Lemma lstrip_rstrip_fixed s :
  PyStr.lstrip s = s -> PyStr.lstrip (PyStr.rstrip s) = PyStr.rstrip s.
Proof.
  destruct s as [|c s]; [reflexivity|].
  cbn [PyStr.lstrip PyStr.rstrip].
  destruct (PyStr.is_space c) eqn:Ec.
  - intros H. exfalso.
    assert (Hlen : (String.length (PyStr.lstrip s) <= String.length s)%nat).
    { clear. induction s as [|d s IH]; [apply le_n|].
      cbn [PyStr.lstrip]. destruct (PyStr.is_space d);
        cbn [String.length]; [now apply le_S | apply le_n]. }
    rewrite H in Hlen. cbn [String.length] in Hlen. lia.
  - intros _. destruct (PyStr.rstrip s); cbn [PyStr.lstrip]; now rewrite Ec.
Qed.

Lemma strip_idem s : PyStr.strip (PyStr.strip s) = PyStr.strip s.
Proof.
  unfold PyStr.strip.
  rewrite (lstrip_rstrip_fixed _ (lstrip_idem s)). apply rstrip_idem.
Qed.

Lemma type_key_normal c :
  PyStr.lower (type_key c) = type_key c
  /\ PyStr.strip (type_key c) = type_key c.
Proof.
  unfold type_key. split; [apply lower_idem|].
  now rewrite <- lower_strip, strip_idem.
Qed.

Lemma lower_length s : String.length (PyStr.lower s) = String.length s.
Proof. induction s as [|c s IH]; simpl; congruence. Qed.

Lemma lstrip_length s :
  (String.length (PyStr.lstrip s) <= String.length s)%nat.
Proof.
  induction s as [|c s IH]; [apply le_n|].
  cbn [PyStr.lstrip]. destruct (PyStr.is_space c); cbn [String.length]; lia.
Qed.

Lemma rstrip_length s :
  (String.length (PyStr.rstrip s) <= String.length s)%nat.
Proof.
  induction s as [|c s IH]; [apply le_n|].
  cbn [PyStr.rstrip]. destruct (PyStr.rstrip s);
    [destruct (PyStr.is_space c)|]; cbn [String.length] in *; lia.
Qed.

Lemma lstrip_full_length s :
  String.length (PyStr.lstrip s) = String.length s -> PyStr.lstrip s = s.
Proof.
  destruct s as [|c s]; [reflexivity|].
  cbn [PyStr.lstrip]. destruct (PyStr.is_space c); [|reflexivity].
  pose proof (lstrip_length s). cbn [String.length]. lia.
Qed.

Lemma rstrip_full_length s :
  String.length (PyStr.rstrip s) = String.length s -> PyStr.rstrip s = s.
Proof.
  induction s as [|c s IH]; [reflexivity|].
  cbn [PyStr.rstrip]. pose proof (rstrip_length s) as Hle.
  destruct (PyStr.rstrip s) as [|d r] eqn:E.
  - destruct (PyStr.is_space c); cbn [String.length] in *; [lia|].
    intros H. destruct s; [reflexivity|]. cbn [String.length] in H. lia.
  - cbn [String.length] in *. intros H. f_equal. apply IH. lia.
Qed.

Lemma strip_full_length s :
  String.length (PyStr.strip s) = String.length s -> PyStr.strip s = s.
Proof.
  unfold PyStr.strip. intros H.
  pose proof (lstrip_length s). pose proof (rstrip_length (PyStr.lstrip s)).
  assert (Hl : PyStr.lstrip s = s) by (apply lstrip_full_length; lia).
  rewrite Hl in *. now apply rstrip_full_length.
Qed.

(** X10. Whenever the lookup returns, what it returns is in normal form:
    the portfolio type is trimmed and in lower case, it is the one whose
    heading was shown, and the frame handed to the presentation has the
    columns of the catalog, at least one row, and in every row the
    [type_name] is that portfolio type. *)
Theorem resolved_frame_invariant
        (f : files) (th rt : Z) (t : list event)
        (ptype : string) (filtered : DataFrame) :
  resolve f th rt = (t, Done (ptype, filtered)) ->
  t = [TypeHeading ptype]
  /\ PyStr.lower ptype = ptype /\ PyStr.strip ptype = ptype
  /\ columns filtered = columns (frame_of (portfolio_type f))
  /\ rows filtered <> []
  /\ Forall (fun r => get (columns filtered) "type_name" r = CStr ptype)
            (rows filtered).
Proof.
  intros H. pose proof (resolve_done_rows _ _ _ _ _ _ H) as Hne.
  rewrite resolve_any, lookup_type_any in H. cbv zeta in H.
  destruct (df_empty _ || df_empty _); [discriminate|].
  destruct (negb (has_column _ "Time_horizon_score")); [discriminate|].
  destruct (negb (has_column _ (PyStr.of_int rt))); [discriminate|].
  destruct (rows_where _ _ _) as [|row0 rest]; [discriminate|].
  rewrite lookup_details_any in H.
  set (c := frame_of (portfolio_type f)) in *.
  set (key := type_key _) in *.
  destruct (has_column c "type_name") eqn:Htn; [|discriminate].
  cbn [negb] in H.
  destruct (existsb is_str (column c "type_name")); [|discriminate].
  destruct (filter (type_matches (columns c) key) (rows c))
    as [|k l] eqn:Hfil; [discriminate|].
  cbn [trace result fst snd app] in H.
  injection H as <- <- <-.
  destruct (type_key_normal
              (get (columns (frame_of (risk_matrix f))) (PyStr.of_int rt)
                   row0)) as [Hlow Hstrip].
  repeat split; try assumption; try reflexivity.
  cbn [rows columns]. apply Forall_forall. intros x Hx.
  change (In x (map (normalized (columns c)) (k :: l))) in Hx.
  apply in_map_iff in Hx. destruct Hx as [y [<- Hy]].
  rewrite <- Hfil in Hy. apply filter_In in Hy. destruct Hy as [_ Hy].
  destruct (has_column_index _ _ Htn) as [i Hi].
  unfold normalized. rewrite Hi, (get_set_cell_same _ _ _ _ _ Hi).
  unfold type_matches in Hy.
  destruct (get (columns c) "type_name" y); try discriminate.
  apply String.eqb_eq in Hy. cbn [str_lower_cell]. now rewrite Hy.
Qed.

Lemma resolved_frame_invariant_witness :
  PyStr.lower "growth" = "growth" /\ PyStr.strip "growth" = "growth"
  /\ Forall (fun r => get catalog_columns "type_name" r = CStr "growth")
            [normalized catalog_columns growth_row;
             normalized catalog_columns second_growth_row].
Proof.
  destruct (resolved_frame_invariant sample_files 5 20
              [TypeHeading "growth"] "growth"
              (mkDF catalog_columns
                    [normalized catalog_columns growth_row;
                     normalized catalog_columns second_growth_row])
              eq_refl)
    as [_ [Hl [Hs [_ [_ Hall]]]]].
  split; [exact Hl|]. split; [exact Hs | exact Hall].
Defined.

(** X11. Only the matrix cell is trimmed, the catalog's [type_name] is
    not: a catalog row whose [type_name] begins or ends with whitespace
    is the row of no portfolio type, whatever the matrix cell is.  A
    catalog made of such rows only always ends in the warning that the
    details were not found. *)
Theorem untrimmed_type_name_never_matches
        (c : DataFrame) (cell0 : cell) :
  has_column c "type_name" = true ->
  rows c <> [] ->
  Forall (fun k => exists t, get (columns c) "type_name" k = CStr t
                             /\ PyStr.strip t <> t) (rows c) ->
  Forall (fun k => type_matches (columns c) (type_key cell0) k = false)
         (rows c)
  /\ lookup_details c (type_key cell0)
     = ([Warning (NoDetailsFor (type_key cell0))], Stopped).
Proof.
  intros Htn Hne Hall.
  assert (Hno : Forall (fun k => type_matches (columns c) (type_key cell0) k
                                 = false) (rows c)).
  { eapply Forall_impl; [|exact Hall].
    intros k [t [Hk Hstrip]]. unfold type_matches. rewrite Hk.
    apply String.eqb_neq. intros Heq. apply Hstrip.
    apply strip_full_length.
    destruct (type_key_normal cell0) as [_ Hs].
    rewrite <- Heq, <- lower_strip in Hs.
    rewrite <- (lower_length (PyStr.strip t)), Hs. apply lower_length. }
  split; [exact Hno|].
  rewrite lookup_details_any, Htn. cbn [negb].
  assert (Hstr : existsb is_str (column c "type_name") = true).
  { destruct (rows c) as [|k l] eqn:E; [contradiction|].
    inversion Hall as [|? ? [t [Hk _]] _]; subst.
    apply (column_has_str c k t); [rewrite E; now left | exact Hk]. }
  now rewrite Hstr, filter_none.
Qed.

Lemma untrimmed_type_name_never_matches_witness :
  lookup_details untrimmed_catalog (type_key (CStr " Growth "))
  = ([Warning (NoDetailsFor "growth")], Stopped).
Proof.
  apply (untrimmed_type_name_never_matches untrimmed_catalog
           (CStr " Growth ")).
  - reflexivity.
  - discriminate.
  - constructor; [|constructor].
    exists "growth ". split; [reflexivity | discriminate].
Defined.

(** ** How the score column is compared *)

(** X12. The row of a time horizon score is found by [==] on the cells of
    [Time_horizon_score].  A column read as text - quoted numbers, say -
    or left empty equals no score: with both tables loaded and holding at
    least one row, every lookup whose risk tolerance column exists ends
    in the warning for the row.  A cell that is a float, as pandas makes
    the column when a score is missing, is matched by value. *)
Theorem score_column_compared_by_value
        (to_numeric_str : string -> option number)
        (sort_values : bool -> list (string * Z) -> list (string * Z))
        (f : files) (m c : DataFrame) (th rt : Z) :
  risk_matrix f = Parsed m -> portfolio_type f = Parsed c ->
  df_empty m = false -> df_empty c = false ->
  has_column m "Time_horizon_score" = true ->
  has_column m (PyStr.of_int rt) = true ->
  (Forall (fun r => not_a_number (get (columns m) "Time_horizon_score" r)
                    = true) (rows m) ->
   show_portfolio to_numeric_str sort_values f th rt
   = ([Warning (NoRowFor th)], Stopped))
  /\ (forall r q repr,
        get (columns m) "Time_horizon_score" r = CFloat q repr ->
        (horizon_matches (columns m) th r = true <-> (q == inject_Z th)%Q)).
Proof.
  intros Hm Hc Hem Hec Hth Hcol. split.
  - intros Htext. apply show_portfolio_halts.
    rewrite (resolve_eq f m c th rt Hm Hc Hem Hec Hth), Hcol.
    rewrite rows_where_none; [reflexivity|].
    eapply Forall_impl; [|exact Htext].
    intros r. unfold horizon_matches.
    now destruct (get (columns m) "Time_horizon_score" r).
  - intros r q repr Hr. unfold horizon_matches. rewrite Hr.
    apply Qeq_bool_iff.
Qed.

Lemma score_column_compared_by_value_witness :
  show_portfolio read_decimal insertion_sort
    (mkFiles Absent (Parsed text_matrix) (Parsed sample_catalog)) 5 20
  = ([Warning (NoRowFor 5)], Stopped)
  /\ (horizon_matches (columns float_matrix) 5
                      [CFloat (5 # 1) "5.0"; CStr "growth"] = true
      <-> (5 # 1 == inject_Z 5)%Q).
Proof.
  split.
  - apply (score_column_compared_by_value read_decimal insertion_sort
             (mkFiles Absent (Parsed text_matrix) (Parsed sample_catalog))
             text_matrix sample_catalog 5 20);
      try reflexivity.
    repeat constructor.
  - exact (proj2 (score_column_compared_by_value read_decimal insertion_sort
             (mkFiles Absent (Parsed float_matrix) (Parsed sample_catalog))
             float_matrix sample_catalog 5 20
             eq_refl eq_refl eq_refl eq_refl eq_refl eq_refl)
             [CFloat (5 # 1) "5.0"; CStr "growth"] (5 # 1) "5.0" eq_refl).
Defined.

(** ** The bar chart *)



Lemma group_add_keys k v g x :
  In x (map fst (group_add k v g)) <-> x = k \/ In x (map fst g).
Proof.
  induction g as [|[k' v'] g IH]; cbn [group_add map fst In].
  - intuition.
  - destruct (String.compare k k') eqn:E; cbn [map fst In].
    + apply String.compare_eq_iff in E. subst. intuition.
    + intuition.
    + rewrite IH. intuition.
Qed.



Lemma group_add_perm k v g :
  ~ In k (map fst g) -> Permutation ((k, v) :: g) (group_add k v g).
Proof.
  induction g as [|[k' v'] g IH]; cbn [group_add map fst In]; intros Hnot.
  - reflexivity.
  - destruct (String.compare k k') eqn:E.
    + apply String.compare_eq_iff in E. subst. exfalso. apply Hnot. now left.
    + reflexivity.
    + rewrite perm_swap. constructor. apply IH. intuition.
Qed.




Lemma groupby_fold_perm data : forall acc,
  NoDup (map fst data) ->
  (forall x, In x (map fst data) -> ~ In x (map fst acc)) ->
  Permutation (data ++ acc)
    (fold_left (fun g kv => group_add (fst kv) (snd kv) g) data acc).
Proof.
  induction data as [|[k v] data IH]; intros acc Hnd Hdis;
    cbn [fold_left app].
  - reflexivity.
  - cbn [map fst] in Hnd. inversion Hnd as [|? ? Hk Hnd']; subst.
    cbn [fst snd].
    etransitivity; [|apply IH].
    + etransitivity; [apply Permutation_middle|].
      apply Permutation_app_head. apply group_add_perm.
      apply Hdis. now left.
    + exact Hnd'.
    + intros x Hx Hin. apply group_add_keys in Hin.
      destruct Hin as [->|Hin]; [contradiction|].
      apply (Hdis x); [now right | exact Hin].
Qed.




Lemma sorted_ascending l :
  Sorted (by_weight true) l -> StronglySorted (fun a b => snd a <= snd b) l.
Proof.
  intros Hs. apply Sorted_StronglySorted in Hs;
    [|intros a b c; apply by_weight_trans].
  induction Hs as [|a l _ IH Hall]; constructor; [exact IH|].
  eapply Forall_impl; [|exact Hall].
  intros b Hb. now apply Z.leb_le in Hb.
Qed.



Lemma weights_of_names to_numeric_str cols row0 :
  map fst (weights_of to_numeric_str cols row0)
  = ["Large cap equity"; "Small cap equity"; "International equity";
     "Fixed income"; "Cash investments"].
Proof. reflexivity. Qed.

Lemma asset_classes_nodup :
  NoDup ["Large cap equity"; "Small cap equity"; "International equity";
         "Fixed income"; "Cash investments"].
Proof.
  repeat (constructor; [simpl; intros H;
    repeat (destruct H as [H|H]; [discriminate H|]); exact H|]).
  constructor.
Qed.

(** X14. The chart of a portfolio shows the very five pairs of asset
    class and weight of the breakdown [comp], one bar each - but in
    ascending order of weight: the descending order in which [comp] was
    sorted is undone by the sort inside [bar_chart_display]. *)
Theorem chart_shows_breakdown_ascending
        (to_numeric_str : string -> option number)
        (sort_values : bool -> list (string * Z) -> list (string * Z))
        (cols : list string) (row0 : list cell) :
  sorts sort_values ->
  exists bars,
    bar_chart_display sort_values
      (composition to_numeric_str sort_values cols row0)
    = ([BarChart bars], Done tt)
    /\ Permutation (weights_of to_numeric_str cols row0) bars
    /\ Permutation (composition to_numeric_str sort_values cols row0) bars
    /\ StronglySorted (fun a b => snd a <= snd b) bars.
Proof.
  intros Hsort.
  set (comp := composition to_numeric_str sort_values cols row0).
  destruct (Hsort false (weights_of to_numeric_str cols row0)) as [Hw _].
  change (sort_values false (weights_of to_numeric_str cols row0))
    with comp in Hw.
  destruct (Hsort true (groupby_sum comp)) as [Hp Hs].
  assert (Hnd : NoDup (map fst comp)).
  { eapply Permutation_NoDup; [apply Permutation_map; exact Hw|].
    rewrite weights_of_names. apply asset_classes_nodup. }
  assert (Hcomp : Permutation comp (sort_values true (groupby_sum comp))).
  { etransitivity; [|exact Hp]. unfold groupby_sum.
    rewrite <- (app_nil_r comp) at 1.
    apply groupby_fold_perm; [exact Hnd | intros x _ []]. }
  exists (sort_values true (groupby_sum comp)).
  split; [|split; [|split]].
  - pose proof (Permutation_length Hw) as Hlen.
    destruct comp; [discriminate Hlen | reflexivity].
  - etransitivity; eassumption.
  - exact Hcomp.
  - now apply sorted_ascending.
Qed.

Lemma chart_shows_breakdown_ascending_witness :
  exists bars,
    bar_chart_display insertion_sort
      (composition read_decimal insertion_sort catalog_columns odd_row)
    = ([BarChart bars], Done tt)
    /\ Permutation (weights_of read_decimal catalog_columns odd_row) bars
    /\ StronglySorted (fun a b => snd a <= snd b) bars.
Proof.
  destruct (chart_shows_breakdown_ascending read_decimal insertion_sort
              catalog_columns odd_row insertion_sort_sorts)
    as [bars [H1 [H2 [_ H3]]]].
  exists bars. split; [exact H1|]. split; [exact H2 | exact H3].
Defined.

(** ** The whole evaluation when every lookup succeeds *)

Lemma get_normalized_other cols name r :
  name <> "type_name" ->
  get cols name (normalized cols r) = get cols name r.
Proof.
  intros Hne. unfold normalized.
  destruct (index_of "type_name" cols) as [i|] eqn:Hi; [|reflexivity].
  now apply get_set_cell_other with (name := "type_name").
Qed.

Lemma weight_cells_normalized cols r :
  weight_cells cols (normalized cols r) = weight_cells cols r.
Proof.
  unfold weight_cells. cbn [map comp_cols].
  now rewrite !get_normalized_other by discriminate.
Qed.

Lemma composition_normalized to_numeric_str sort_values cols r :
  composition to_numeric_str sort_values cols (normalized cols r)
  = composition to_numeric_str sort_values cols r.
Proof.
  unfold composition. cbn [map comp_cols].
  now rewrite !get_normalized_other by discriminate.
Qed.

Lemma returns_normalized cols l :
  map (fun x => map (fun n => get cols n x) returns_cols)
      (map (normalized cols) l)
  = map (fun x => map (fun n => get cols n x) returns_cols) l.
Proof.
  rewrite map_map. apply map_ext. intros x. cbn [map returns_cols].
  now rewrite !get_normalized_other by discriminate.
Qed.

(** X15. When every lookup succeeds, the catalog has its description,
    returns and weight columns, and no weight of the first catalog row of
    the type is infinite, the script ends normally after showing, in this
    order: the questionnaire, the heading of the portfolio type, the
    description of the first catalog row of that type, a returns table
    with one column for each catalog row of that type, the suggestion,
    the chart of the weights of the first row, and the definitions.  The
    description and the weights are those of the table as loaded;
    lowercasing [type_name] touches none of them. *)
Theorem successful_evaluation
        (to_numeric_str : string -> option number)
        (sort_values : bool -> list (string * Z) -> list (string * Z))
        (f : files) (a : answers) (p : Z) (m c : DataFrame)
        (pre : list (list cell)) (r : list cell) (post : list (list cell))
        (kpre : list (list cell)) (k : list cell)
        (kpost : list (list cell)) :
  sorts sort_values ->
  3 <= time_horizon_score a ->
  result (plan_points f (a7 a)) = Done p ->
  risk_matrix f = Parsed m -> portfolio_type f = Parsed c ->
  df_empty m = false -> df_empty c = false ->
  has_column m "Time_horizon_score" = true ->
  has_column m (PyStr.of_int (Z.min (raw_risk_sum a p) 40)) = true ->
  rows m = pre ++ r :: post ->
  Forall (fun r => horizon_matches (columns m) (time_horizon_score a) r
                   = false) pre ->
  horizon_matches (columns m) (time_horizon_score a) r = true ->
  has_column c "type_name" = true ->
  rows c = kpre ++ k :: kpost ->
  Forall (fun x => type_matches (columns c)
                     (type_key (get (columns m)
                        (PyStr.of_int (Z.min (raw_risk_sum a p) 40)) r)) x
                   = false) kpre ->
  type_matches (columns c)
    (type_key (get (columns m)
       (PyStr.of_int (Z.min (raw_risk_sum a p) 40)) r)) k = true ->
  has_column c "investor_type" = true ->
  forallb (has_column c) returns_cols = true ->
  forallb (has_column c) comp_cols = true ->
  castable to_numeric_str (weight_cells (columns c) k) = true ->
  exists stats,
    List.length stats
    = List.length
        (filter (type_matches (columns c)
                   (type_key (get (columns m)
                      (PyStr.of_int (Z.min (raw_risk_sum a p) 40)) r)))
                (rows c))
    /\ script to_numeric_str sort_values f a
       = (introduction ++ trace (render_time_horizon a)
          ++ trace (render_risk_tolerance f a)
          ++ [TypeHeading
                (type_key (get (columns m)
                   (PyStr.of_int (Z.min (raw_risk_sum a p) 40)) r));
              Profile
                (type_key (get (columns m)
                   (PyStr.of_int (Z.min (raw_risk_sum a p) 40)) r))
                (py_str (get (columns c) "investor_type" k));
              ReturnsTable stats;
              Suggestion
                (type_key (get (columns m)
                   (PyStr.of_int (Z.min (raw_risk_sum a p) 40)) r));
              BarChart
                (sort_values true
                   (groupby_sum
                      (composition to_numeric_str sort_values
                                   (columns c) k)));
              Prose "Definitions"],
          Done tt).
Proof.
  intros Hsort Hth Hp Hm Hc Hem Hec Hcolth Hcol Hrows Hpre Hr
         Htn Hcrows Hkpre Hk Hinv Hret Hcomp Hcast.
  set (rt := Z.min (raw_risk_sum a p) 40) in *.
  set (key := type_key (get (columns m) (PyStr.of_int rt) r)) in *.
  assert (Hstr : existsb is_str (column c "type_name") = true).
  { unfold type_matches in Hk.
    destruct (get (columns c) "type_name" k) as [| | |t|] eqn:Hg;
      try discriminate.
    apply (column_has_str c k t); [|exact Hg].
    rewrite Hcrows. apply in_or_app. right. now left. }
  assert (Hres : resolve f (time_horizon_score a) rt
    = ([TypeHeading key],
       Done (key, mkDF (columns c)
                    (map (normalized (columns c))
                         (filter (type_matches (columns c) key) (rows c)))))).
  { rewrite (resolve_found f m c (time_horizon_score a) rt pre r post
               Hm Hc Hem Hec Hcolth Hcol Hrows Hpre Hr Htn Hstr).
    cbv zeta. fold key.
    rewrite Hcrows, (filter_first _ kpre k kpost Hkpre Hk). reflexivity. }
  assert (Hshow : show_portfolio to_numeric_str sort_values f
                    (time_horizon_score a) rt
    = ([TypeHeading key;
        Profile key (py_str (get (columns c) "investor_type" k));
        ReturnsTable
          (map (fun x => map (fun n => get (columns c) n x) returns_cols)
               (filter (type_matches (columns c) key) (rows c)));
        Suggestion key;
        BarChart (sort_values true
                    (groupby_sum
                       (composition to_numeric_str sort_values
                                    (columns c) k)));
        Prose "Definitions"], Done tt)).
  { unfold show_portfolio. rewrite Hres. cbn [bind].
    rewrite Hcrows, (filter_first _ kpre k kpost Hkpre Hk). cbn [map].
    rewrite <- (weight_cells_normalized (columns c) k) in Hcast.
    rewrite (present_eq to_numeric_str sort_values key (columns c)
               (normalized (columns c) k)
               (map (normalized (columns c))
                    (filter (type_matches (columns c) key) kpost))
               Hsort Hinv Hret Hcomp Hcast).
    rewrite composition_normalized.
    rewrite (get_normalized_other (columns c) "investor_type" k)
      by discriminate.
    change (normalized (columns c) k
            :: map (normalized (columns c))
                   (filter (type_matches (columns c) key) kpost))
      with (map (normalized (columns c))
                (k :: filter (type_matches (columns c) key) kpost)).
    rewrite returns_normalized. reflexivity. }
  assert (Hmain : main to_numeric_str sort_values f a
    = (introduction ++ trace (render_time_horizon a)
       ++ trace (render_risk_tolerance f a)
       ++ trace (show_portfolio to_numeric_str sort_values f
                                (time_horizon_score a) rt),
       result (show_portfolio to_numeric_str sort_values f
                              (time_horizon_score a) rt))).
  { rewrite main_any. apply Z.ltb_ge in Hth. rewrite Hth.
    rewrite render_risk_tolerance_any.
    destruct (plan_points f (a7 a)) as [t [p0| |e0]]; cbn [result snd] in Hp;
      try discriminate.
    injection Hp as ->. reflexivity. }
  exists (map (fun x => map (fun n => get (columns c) n x) returns_cols)
              (filter (type_matches (columns c) key) (rows c))).
  split; [apply length_map|].
  unfold script. rewrite Hmain, Hshow. reflexivity.
Qed.

Lemma successful_evaluation_witness :
  exists stats,
    List.length stats = 1%nat
    /\ script read_decimal insertion_sort sample_files bold_answers
       = (introduction ++ trace (render_time_horizon bold_answers)
          ++ trace (render_risk_tolerance sample_files bold_answers)
          ++ [TypeHeading "income";
              Profile "income" "steady income";
              ReturnsTable stats;
              Suggestion "income";
              BarChart [("Small cap equity", 0); ("International equity", 5);
                        ("Large cap equity", 20); ("Cash investments", 25);
                        ("Fixed income", 50)];
              Prose "Definitions"],
          Done tt).
Proof.
  apply (successful_evaluation read_decimal insertion_sort
           sample_files bold_answers 11 sample_matrix sample_catalog
           [ [CInt 5; CStr " Growth "; CStr "Aggressive"];
             [CInt 5; CStr "income"; CStr "income"] ]
           [CInt 18; CStr "balanced"; CStr "Income"] []
           [] income_row [growth_row; second_growth_row; odd_row]
           insertion_sort_sorts);
    try reflexivity.
  - vm_compute. discriminate.
  - repeat constructor.
  - constructor.
Defined.

(** ** Which parts of a portfolio are shown *)

(** X16. On the rows handed over by the lookup the presentation shows
    the description exactly when the catalog has [investor_type], and the
    returns table exactly when it has the three return columns, whatever
    the other columns are.  It shows the chart, after the suggestion,
    exactly when the catalog has the five weight columns and no weight of
    the first row is infinite; with an infinite weight it raises
    [ValueError] instead, after the description and the returns table.
    In every other case it runs to its end. *)
Theorem presentation_parts
        (to_numeric_str : string -> option number)
        (sort_values : bool -> list (string * Z) -> list (string * Z))
        (ptype : string) (filtered : DataFrame) :
  sorts sort_values ->
  rows filtered <> [] ->
  result (present to_numeric_str sort_values ptype filtered)
  = (if cast_fails to_numeric_str filtered then Raised ValueError
     else Done tt)
  /\ ((exists d, In (Profile ptype d)
                    (trace (present to_numeric_str sort_values ptype
                                    filtered)))
      <-> has_column filtered "investor_type" = true)
  /\ ((exists stats, In (ReturnsTable stats)
                        (trace (present to_numeric_str sort_values ptype
                                        filtered)))
      <-> forallb (has_column filtered) returns_cols = true)
  /\ ((exists bars, In (BarChart bars)
                       (trace (present to_numeric_str sort_values ptype
                                       filtered)))
      <-> forallb (has_column filtered) comp_cols = true
          /\ cast_fails to_numeric_str filtered = false)
  /\ (In (Suggestion ptype)
         (trace (present to_numeric_str sort_values ptype filtered))
      <-> forallb (has_column filtered) comp_cols = true
          /\ cast_fails to_numeric_str filtered = false).
Proof.
  intros Hsort Hne. split; [now apply present_result|].
  unfold present, cast_fails.
  destruct (rows filtered) as [|row0 rest]; [contradiction|].
  change (map (fun c => get (columns filtered) c row0) comp_cols)
    with (weight_cells (columns filtered) row0).
  destruct (Hsort false (weights_of to_numeric_str (columns filtered) row0))
    as [Hp _].
  apply Permutation_length in Hp.
  change (sort_values false
            (weights_of to_numeric_str (columns filtered) row0))
    with (composition to_numeric_str sort_values (columns filtered) row0)
    in Hp.
  unfold bar_chart_display.
  destruct (composition to_numeric_str sort_values (columns filtered) row0)
    as [|x l]; [discriminate Hp|].
  destruct (has_column filtered "investor_type");
    destruct (forallb (has_column filtered) returns_cols);
    destruct (forallb (has_column filtered) comp_cols);
    destruct (castable to_numeric_str
                       (weight_cells (columns filtered) row0));
    cbn [bind emit ret raise trace fst app andb negb];
    repeat match goal with
           | |- _ /\ _ => split
           | |- _ <-> _ => split
           end;
    intros H;
    try match type of H with
        | ex _ => destruct H as [? H]
        | _ /\ _ =>
            destruct H as [H1 H2]; first [discriminate H1 | discriminate H2]
        end;
    try discriminate H;
    try (cbn [In] in H;
         repeat (destruct H as [H|H]; [discriminate H|]);
         contradiction);
    try (split; reflexivity); try reflexivity;
    try (eexists; cbn [In]; tauto); try (cbn [In]; tauto).
Qed.

Lemma presentation_parts_witness :
  result (present read_decimal insertion_sort "income"
            (mkDF catalog_columns [unbounded_row])) = Raised ValueError
  /\ ((exists stats, In (ReturnsTable stats)
         (trace (present read_decimal insertion_sort "income"
                   (mkDF catalog_columns [unbounded_row]))))
      <-> forallb (has_column (mkDF catalog_columns [unbounded_row]))
                  returns_cols = true)
  /\ ((exists bars, In (BarChart bars)
         (trace (present read_decimal insertion_sort "income"
                   (mkDF catalog_columns [unbounded_row]))))
      <-> forallb (has_column (mkDF catalog_columns [unbounded_row]))
                  comp_cols = true
          /\ cast_fails read_decimal (mkDF catalog_columns [unbounded_row])
             = false).
Proof.
  destruct (presentation_parts read_decimal insertion_sort "income"
              (mkDF catalog_columns [unbounded_row])
              insertion_sort_sorts) as [H1 [_ [H3 [H4 _]]]]; [discriminate|].
  split; [exact H1 | split; [exact H3 | exact H4]].
Defined.

(** ** A plan without a name *)




(** ** No portfolio without a successful lookup *)

Lemma existsb_app_false {A} (p : A -> bool) l l' :
  existsb p l = false -> existsb p l' = false -> existsb p (l ++ l') = false.
Proof. intros H H'. now rewrite existsb_app, H, H'. Qed.

Lemma plan_points_shows_none f choice :
  existsb shows_portfolio (trace (plan_points f choice)) = false.
Proof.
  rewrite plan_points_any.
  destruct (plan_table_usable (frame_of (question_7 f))); [reflexivity|].
  cbn [trace fst]. now destruct (question_7 f).
Qed.

Lemma lookup_details_shows_none c t :
  existsb shows_portfolio (trace (lookup_details c t)) = false.
Proof.
  rewrite lookup_details_any.
  destruct (negb (has_column c "type_name")); [reflexivity|].
  destruct (existsb is_str (column c "type_name")); [|reflexivity].
  now destruct (filter _ (rows c)).
Qed.

Lemma lookup_type_shows_none f th rt :
  existsb shows_portfolio (trace (lookup_type f th rt)) = false.
Proof.
  rewrite lookup_type_any. cbv zeta.
  destruct (df_empty _ || df_empty _).
  - cbn [trace fst]. unfold load_notices.
    now destruct (risk_matrix f), (portfolio_type f).
  - destruct (negb (has_column _ "Time_horizon_score")); [reflexivity|].
    destruct (negb (has_column _ (PyStr.of_int rt))); [reflexivity|].
    now destruct (rows_where _ _ _).
Qed.

Lemma resolve_shows_none f th rt :
  existsb shows_portfolio (trace (resolve f th rt)) = false.
Proof.
  rewrite resolve_any.
  pose proof (lookup_type_shows_none f th rt) as H.
  destruct (lookup_type f th rt) as [t [[p c]| |e]]; cbn [trace fst] in *;
    try exact H.
  apply existsb_app_false; [exact H | apply lookup_details_shows_none].
Qed.

(** X19. Whatever the files and answers are, the script shows a
    description, a returns table, a suggestion or a chart only if the
    time horizon score is at least 3, question 7 returned its points,
    and the lookup with the capped score returned a portfolio type with
    its catalog rows.  So after a short horizon, a missing or malformed
    table, a lookup miss, or an exception raised before the lookup has
    returned (lines 152 and 210), nothing of a portfolio is shown. *)
Theorem portfolio_only_after_lookup
        (to_numeric_str : string -> option number)
        (sort_values : bool -> list (string * Z) -> list (string * Z))
        (f : files) (a : answers) :
  existsb shows_portfolio (trace (script to_numeric_str sort_values f a))
  = true ->
  3 <= time_horizon_score a
  /\ exists p t ptype filtered,
       result (plan_points f (a7 a)) = Done p
       /\ resolve f (time_horizon_score a) (Z.min (raw_risk_sum a p) 40)
          = (t, Done (ptype, filtered)).
Proof.
  intros H.
  assert (Hmain : existsb shows_portfolio
                    (trace (main to_numeric_str sort_values f a)) = true).
  { unfold script in H.
    destruct (main to_numeric_str sort_values f a) as [t [u| |e]];
      cbn [trace fst] in *; try exact H.
    rewrite existsb_app in H. cbn [existsb shows_portfolio] in H.
    now rewrite !orb_false_r in H. }
  clear H. rewrite main_any in Hmain.
  destruct (time_horizon_score a <? 3) eqn:Hth.
  - cbn [trace fst] in Hmain. rewrite render_time_horizon_eq in Hmain.
    discriminate Hmain.
  - apply Z.ltb_ge in Hth. split; [exact Hth|].
    rewrite render_risk_tolerance_any in Hmain.
    pose proof (plan_points_shows_none f (a7 a)) as Ht.
    assert (Hi : existsb shows_portfolio introduction = false)
      by reflexivity.
    assert (Hh : existsb shows_portfolio (trace (render_time_horizon a))
                 = false) by (now rewrite render_time_horizon_eq).
    assert (Hq : existsb shows_portfolio risk_questions = false)
      by reflexivity.
    destruct (plan_points f (a7 a)) as [t [p| |e]] eqn:Hp;
      cbn [trace fst] in *;
      rewrite ?existsb_app, ?Hi, ?Hh, ?Hq, ?Ht in Hmain;
      cbn [orb existsb shows_portfolio] in Hmain; try discriminate Hmain.
    exists p.
    unfold show_portfolio in Hmain.
    pose proof (resolve_shows_none f (time_horizon_score a)
                  (Z.min (raw_risk_sum a p) 40)) as Hres.
    destruct (resolve f (time_horizon_score a)
                      (Z.min (raw_risk_sum a p) 40))
      as [tr [[ptype filtered]| |e]]; cbn [bind trace fst] in *.
    + exists tr, ptype, filtered. now split.
    + rewrite Hres in Hmain. discriminate.
    + rewrite Hres in Hmain. discriminate.
Qed.

Lemma portfolio_only_after_lookup_witness :
  3 <= time_horizon_score bold_answers
  /\ exists p t ptype filtered,
       result (plan_points sample_files (a7 bold_answers)) = Done p
       /\ resolve sample_files (time_horizon_score bold_answers)
                  (Z.min (raw_risk_sum bold_answers p) 40)
          = (t, Done (ptype, filtered)).
Proof.
  apply (portfolio_only_after_lookup read_decimal insertion_sort
           sample_files bold_answers).
  reflexivity.
Defined.

(** ** The plan table that is shown *)

Lemma index_of_app name pre suffix :
  In name pre -> index_of name (pre ++ suffix) = index_of name pre.
Proof.
  induction pre as [|c pre IH]; cbn [index_of app In]; [easy|].
  intros [->|Hin].
  - now rewrite String.eqb_refl.
  - destruct (String.eqb c name); [reflexivity|]. now rewrite IH.
Qed.

Lemma index_of_bound name : forall cols i,
  index_of name cols = Some i -> (i < List.length cols)%nat.
Proof.
  induction cols as [|c cols IH]; cbn [index_of List.length]; intros i H;
    [discriminate|].
  destruct (String.eqb c name).
  - injection H as <-. lia.
  - destruct (index_of name cols) as [j|]; [|discriminate].
    injection H as <-. specialize (IH j eq_refl). lia.
Qed.

Lemma index_of_in name : forall cols,
  In name cols -> exists i, index_of name cols = Some i.
Proof.
  induction cols as [|c cols IH]; cbn [index_of In]; [easy|].
  intros [->|Hin].
  - rewrite String.eqb_refl. now eexists.
  - destruct (String.eqb c name); [now eexists|].
    destruct (IH Hin) as [i ->]. now eexists.
Qed.

(** X20. What the user sees of a usable plan table is the table without
    its last column, whichever column that is: the rows are the same in
    number and order, and every other column holds the same cells.  With
    distinct column names the last column itself is not shown - so the
    points are hidden only if [Points] comes last. *)
Theorem plan_table_shown_without_last_column
        (f : files) (choice : cell) (pre : list string) (last : string) :
  plan_table_usable (frame_of (question_7 f)) = true ->
  columns (frame_of (question_7 f)) = pre ++ [last] ->
  In (Table (drop_last_column (frame_of (question_7 f))))
     (trace (plan_points f choice))
  /\ columns (drop_last_column (frame_of (question_7 f))) = pre
  /\ List.length (rows (drop_last_column (frame_of (question_7 f))))
     = List.length (rows (frame_of (question_7 f)))
  /\ (forall name, In name pre ->
        column (drop_last_column (frame_of (question_7 f))) name
        = column (frame_of (question_7 f)) name)
  /\ (NoDup (pre ++ [last]) ->
      has_column (drop_last_column (frame_of (question_7 f))) last = false).
Proof.
  intros Hu Hcols. set (df := frame_of (question_7 f)) in *.
  split; [|split; [|split; [|split]]].
  - rewrite plan_points_any. fold df. rewrite Hu. cbn [trace fst In]. tauto.
  - unfold drop_last_column. cbn [columns]. rewrite Hcols.
    apply removelast_last.
  - unfold drop_last_column. cbn [rows]. apply length_map.
  - intros name Hin. unfold column, drop_last_column. cbn [columns rows].
    rewrite Hcols, removelast_last, map_map. apply map_ext. intros r.
    unfold get. rewrite (index_of_app name pre [last] Hin).
    destruct (index_of_in name pre Hin) as [i Hi]. rewrite Hi.
    pose proof (index_of_bound name pre i Hi) as Hlt.
    rewrite nth_firstn, length_app. cbn [List.length].
    replace (pred (List.length pre + 1)) with (List.length pre) by lia.
    now apply Nat.ltb_lt in Hlt as ->.
  - intros Hnd. unfold has_column, drop_last_column. cbn [columns].
    rewrite Hcols, removelast_last.
    apply NoDup_remove_2 in Hnd. rewrite app_nil_r in Hnd.
    destruct (existsb (String.eqb last) pre) eqn:E; [|reflexivity].
    apply existsb_exists in E. destruct E as [x [Hx Heq]].
    apply String.eqb_eq in Heq. subst. contradiction.
Qed.

Lemma plan_table_shown_without_last_column_witness :
  columns (drop_last_column sample_plans) = ["Plan"; "Best case"; "Worst case"]
  /\ has_column (drop_last_column sample_plans) "Points" = false
  /\ has_column
       (drop_last_column
          (mkDF ["Plan"; "Points"; "Best case"]
                [[CStr "Plan A"; CInt 0; CStr "10%"]])) "Points" = true.
Proof.
  destruct (plan_table_shown_without_last_column sample_files (CStr "Plan A")
              ["Plan"; "Best case"; "Worst case"] "Points" eq_refl eq_refl)
    as [_ [Hc [_ [_ Hlast]]]].
  split; [exact Hc|]. split; [|reflexivity].
  apply Hlast.
  repeat (constructor; [simpl; intros H;
    repeat (destruct H as [H|H]; [discriminate H|]); exact H|]).
  constructor.
Defined.
